(** * Would You Rather: vote ledger, user progression, badges and rooms

    A shallow embedding of the server's vote path
    ([models/Question.js], [models/User.js], [models/Vote.js],
    [models/Badge.js], [controllers/voteController.js]) and of the
    Socket.IO handler ([socket/socketHandler.js]), followed by the
    properties proved about them.

    Conventions of the embedding.
    - Mongo ObjectIds are natural numbers.
    - A [Date] is its millisecond timestamp, an integer.  Every
      [new Date()] / [Date.now()] of one request or socket event reads
      the same instant [now].  The server's local time zone has a fixed
      offset [tz] from UTC (in milliseconds), so local midnight is
      computed arithmetically.
    - Counters, points and thresholds are integers ([Z]).  The
      percentages and rates of [updateStats] are computed in IEEE 754
      binary64, as JavaScript does, with Rocq's primitive floats; the
      level and the day difference, which are floors, are computed on
      integers.
    - A thrown exception or a call of [next(err)] is a value of an error
      type; the state returned with it is the state the database has
      reached when the error surfaces. *)

From Stdlib Require Import ZArith Floats Uint63 List Bool Lia.
From stdpp Require Import gmap strings list fin_maps.

Local Open Scope Z_scope.

(** ** JavaScript numbers *)

Module JS.

(** The Number with the value of a non-negative integer (exact below
    [2^53]). *)
Definition Number (n : Z) : float := PrimFloat.of_uint63 (Uint63.of_Z n).

(** The signed mantissa and the exponent of a finite float:
    [x = m * 2^e]. *)
Definition decode (x : float) : option (Z * Z) :=
  match Prim2SF x with
  | S754_zero _ => Some (0, 0)
  | S754_finite s m e => Some (if s then Z.neg m else Z.pos m, e)
  | _ => None
  end.

(** [Math.round]: the closest integer, a tie going towards +infinity,
    which is [floor (x + 1/2)] computed exactly.  The result for NaN and
    the infinities (which are not integers) is represented by 0; no
    caller below reaches it. *)
Definition Math_round (x : float) : Z :=
  match decode x with
  | Some (m, e) =>
      if 0 <=? e then Z.shiftl m e
      else Z.shiftr (2 * m + Z.shiftl 1 (- e)) (1 - e)
  | None => 0
  end.

(** [Math.floor], with the same convention. *)
Definition Math_floor (x : float) : Z :=
  match decode x with
  | Some (m, e) => if 0 <=? e then Z.shiftl m e else Z.shiftr m (- e)
  | None => 0
  end.

(** [x || d] on a Number that is an integer or [undefined]. *)
Definition or_default (x : option Z) (d : Z) : Z :=
  match x with
  | Some v => if v =? 0 then d else v
  | None => d
  end.

End JS.

(** ** Shared vocabulary *)

Definition UserId := nat.
Definition QuestionId := nat.
Definition BadgeId := nat.
Definition VoteId := nat.
Definition SocketId := nat.

(** The two values the Joi [voteSchema] lets through as [choice]. *)
Inductive Choice := optionA | optionB.

Definition choice_name (c : Choice) : string :=
  match c with optionA => "optionA" | optionB => "optionB" end.

Global Instance Choice_eq_dec : EqDecision Choice.
Proof. solve_decision. Defined.

(** A function that may throw. *)
Inductive result (E A : Type) :=
| Ok (a : A)
| Err (e : E).
Arguments Ok {E A} a.
Arguments Err {E A} e.

(** Time. *)
Definition MS_PER_DAY : Z := 1000 * 60 * 60 * 24.

(** [d.setHours(0, 0, 0, 0)]: local midnight of the day of [t], in a zone
    [tz] milliseconds ahead of UTC. *)
Definition setHours0 (tz t : Z) : Z := t - (t + tz) mod MS_PER_DAY.

(** ** models/Question.js *)

Module Question.

Record VoteEntry := {
  userId : UserId;
  votedAt : Z;
  decisionTime : Z
}.

Record Stats := {
  totalVotes : Z;
  optionAPercentage : Z;
  optionBPercentage : Z;
  engagementRate : float;
  averageDecisionTime : float;
  views : Z;
  shares : Z;
  comments : Z
}.

Inductive QType := user | ai.
Inductive Moderation := pending | approved | rejected.

Record t := {
  createdBy : UserId;
  type : QType;
  votesA : list VoteEntry;          (* votes.optionA *)
  votesB : list VoteEntry;          (* votes.optionB *)
  stats : Stats;
  moderation_status : Moderation;
  moderatedAt : option Z;
  isActive : bool;
  createdAt : Z
}.

Global Instance Moderation_eq_dec : EqDecision Moderation.
Proof. solve_decision. Defined.
Global Instance QType_eq_dec : EqDecision QType.
Proof. solve_decision. Defined.

(** The schema defaults of a new document. *)
Definition default_stats : Stats :=
  {| totalVotes := 0; optionAPercentage := 0; optionBPercentage := 0;
     engagementRate := PrimFloat.zero; averageDecisionTime := PrimFloat.zero;
     views := 0; shares := 0; comments := 0 |}.

Definition voted_by (u : UserId) (v : VoteEntry) : bool :=
  bool_decide (userId v = u).

(** [Math.round((count / total) * 100)]. *)
Definition percentage (count total : Z) : Z :=
  JS.Math_round
    (PrimFloat.mul (PrimFloat.div (JS.Number count) (JS.Number total))
                   (JS.Number 100)).

(** virtual [totalVotes] *)
Definition virtual_totalVotes (q : t) : Z :=
  Z.of_nat (length (votesA q)) + Z.of_nat (length (votesB q)).

(** virtual [votePercentages] *)
Definition votePercentages (q : t) : Z * Z :=
  let total := virtual_totalVotes q in
  if total =? 0 then (0, 0)
  else (percentage (Z.of_nat (length (votesA q))) total,
        percentage (Z.of_nat (length (votesB q))) total).

(** [hasUserVoted(userId)] *)
Definition hasUserVoted (q : t) (u : UserId) : option string :=
  if existsb (voted_by u) (votesA q) then Some "optionA"
  else if existsb (voted_by u) (votesB q) then Some "optionB"
  else None.

Definition sum_decisionTime (l : list VoteEntry) : Z :=
  fold_left (fun sum vote => sum + decisionTime vote) l 0.

(** [updateStats()] *)
Definition updateStats (q : t) : t :=
  let totalVotes := Z.of_nat (length (votesA q)) + Z.of_nat (length (votesB q)) in
  let s := stats q in
  let s' :=
    if 0 <? totalVotes then
      let allVotes := votesA q ++ votesB q in
      let totalDecisionTime := sum_decisionTime allVotes in
      {| totalVotes := totalVotes;
         optionAPercentage := percentage (Z.of_nat (length (votesA q))) totalVotes;
         optionBPercentage := percentage (Z.of_nat (length (votesB q))) totalVotes;
         engagementRate :=
           if 0 <? views s
           then PrimFloat.mul (PrimFloat.div (JS.Number totalVotes) (JS.Number (views s)))
                              (JS.Number 100)
           else engagementRate s;
         averageDecisionTime :=
           PrimFloat.div (JS.Number totalDecisionTime) (JS.Number totalVotes);
         views := views s; shares := shares s; comments := comments s |}
    else
      {| totalVotes := totalVotes;
         optionAPercentage := 0;
         optionBPercentage := 0;
         engagementRate := PrimFloat.zero;
         averageDecisionTime := PrimFloat.zero;
         views := views s; shares := shares s; comments := comments s |} in
  {| createdBy := createdBy q; type := type q;
     votesA := votesA q; votesB := votesB q; stats := s';
     moderation_status := moderation_status q; moderatedAt := moderatedAt q;
     isActive := isActive q; createdAt := createdAt q |}.

Definition with_votes (q : t) (a b : list VoteEntry) : t :=
  {| createdBy := createdBy q; type := type q;
     votesA := a; votesB := b; stats := stats q;
     moderation_status := moderation_status q; moderatedAt := moderatedAt q;
     isActive := isActive q; createdAt := createdAt q |}.

(** [addVote(userId, option, decisionTime = 0)]; the two [throw]s are the
    two errors. *)
Definition addVote (now : Z) (q : t) (u : UserId) (option_ : string)
    (decisionTime_ : option Z) : result string t :=
  match hasUserVoted q u with
  | Some _ => Err "User has already voted on this question"
  | None =>
      let voteData :=
        {| userId := u; votedAt := now;
           decisionTime := match decisionTime_ with Some d => d | None => 0 end |} in
      if String.eqb option_ "optionA" then
        Ok (updateStats (with_votes q (votesA q ++ [voteData]) (votesB q)))
      else if String.eqb option_ "optionB" then
        Ok (updateStats (with_votes q (votesA q) (votesB q ++ [voteData])))
      else Err "Invalid vote option"
  end.

(** [removeVote(userId)] *)
Definition removeVote (q : t) (u : UserId) : t :=
  updateStats
    (with_votes q
       (List.filter (fun vote => negb (voted_by u vote)) (votesA q))
       (List.filter (fun vote => negb (voted_by u vote)) (votesB q))).

Definition with_stats (q : t) (s : Stats) : t :=
  {| createdBy := createdBy q; type := type q;
     votesA := votesA q; votesB := votesB q; stats := s;
     moderation_status := moderation_status q; moderatedAt := moderatedAt q;
     isActive := isActive q; createdAt := createdAt q |}.

(** [incrementViews()] *)
Definition incrementViews (q : t) : t :=
  let s := stats q in
  updateStats
    (with_stats q
       {| totalVotes := totalVotes s;
          optionAPercentage := optionAPercentage s;
          optionBPercentage := optionBPercentage s;
          engagementRate := engagementRate s;
          averageDecisionTime := averageDecisionTime s;
          views := views s + 1; shares := shares s; comments := comments s |}).

(** [incrementShares()] *)
Definition incrementShares (q : t) : t :=
  let s := stats q in
  with_stats q
    {| totalVotes := totalVotes s;
       optionAPercentage := optionAPercentage s;
       optionBPercentage := optionBPercentage s;
       engagementRate := engagementRate s;
       averageDecisionTime := averageDecisionTime s;
       views := views s; shares := shares s + 1; comments := comments s |}.

(** The [pre('save')] middleware: recompute the statistics and approve a
    pending question of type [user]. *)
Definition pre_save (now : Z) (q : t) : t :=
  let q1 := updateStats q in
  match type q1, moderation_status q1 with
  | user, pending =>
      {| createdBy := createdBy q1; type := type q1;
         votesA := votesA q1; votesB := votesB q1; stats := stats q1;
         moderation_status := approved; moderatedAt := Some now;
         isActive := isActive q1; createdAt := createdAt q1 |}
  | _, _ => q1
  end.

End Question.

(** ** models/User.js *)

Module User.

Record Stats := {
  questionsCreated : Z;
  votesCount : Z;
  points : Z;
  currentStreak : Z;
  longestStreak : Z;
  lastActivity : Z;
  badges : list BadgeId;
  level : Z;
  experience : Z
}.

Record t := {
  username : string;
  avatar : option string;
  stats : Stats;
  isActive : bool
}.

(** The schema defaults of a user created at [now]. *)
Definition default_stats (now : Z) : Stats :=
  {| questionsCreated := 0; votesCount := 0; points := 0;
     currentStreak := 0; longestStreak := 0; lastActivity := now;
     badges := []; level := 1; experience := 0 |}.

Definition with_stats (u : t) (s : Stats) : t :=
  {| username := username u; avatar := avatar u; stats := s;
     isActive := isActive u |}.

(** [Math.floor(Math.sqrt(experience / 100)) + 1] on an integer
    [experience >= 0].  The floor of the real square root of
    [experience / 100] is the integer square root of the integer
    quotient (see [level_of_experience_bounds]), and binary64 returns
    the same integer (checked in [level_binary64_agrees]). *)
Definition level_of_experience (experience : Z) : Z :=
  Z.sqrt (experience / 100) + 1.

(** The same expression as JavaScript evaluates it. *)
Definition level_binary64 (experience : Z) : Z :=
  JS.Math_floor
    (PrimFloat.sqrt (PrimFloat.div (JS.Number experience) (JS.Number 100))) + 1.

Record AddPointsResult := { levelUp : bool; newLevel : Z }.

(** [addPoints(points)] *)
Definition addPoints (u : t) (pts : Z) : t * AddPointsResult :=
  let s := stats u in
  let points' := points s + pts in
  let experience' := experience s + pts in
  let newLevel := level_of_experience experience' in
  if level s <? newLevel then
    (with_stats u
       {| questionsCreated := questionsCreated s; votesCount := votesCount s;
          points := points'; currentStreak := currentStreak s;
          longestStreak := longestStreak s; lastActivity := lastActivity s;
          badges := badges s; level := newLevel; experience := experience' |},
     {| levelUp := true; newLevel := newLevel |})
  else
    (with_stats u
       {| questionsCreated := questionsCreated s; votesCount := votesCount s;
          points := points'; currentStreak := currentStreak s;
          longestStreak := longestStreak s; lastActivity := lastActivity s;
          badges := badges s; level := level s; experience := experience' |},
     {| levelUp := false; newLevel := newLevel |}).

Definition with_streak (u : t) (current longest last : Z) : t :=
  let s := stats u in
  with_stats u
    {| questionsCreated := questionsCreated s; votesCount := votesCount s;
       points := points s; currentStreak := current;
       longestStreak := longest; lastActivity := last;
       badges := badges s; level := level s; experience := experience s |}.

(** [daysDiff] of [updateStreak()]: the two operands are local midnights. *)
Definition daysDiff (tz now last : Z) : Z :=
  (setHours0 tz now - setHours0 tz last) / MS_PER_DAY.

(** [updateStreak()] *)
Definition updateStreak (tz now : Z) (u : t) : t * Z :=
  let s := stats u in
  let d := daysDiff tz now (lastActivity s) in
  if d =? 0 then (u, currentStreak s)
  else if d =? 1 then
    let current := currentStreak s + 1 in
    let longest := if longestStreak s <? current then current else longestStreak s in
    (with_streak u current longest now, current)
  else (with_streak u 1 (longestStreak s) now, 1).

(** [user.stats.votesCount += 1] of [submitVote]. *)
Definition incVotesCount (u : t) : t :=
  let s := stats u in
  with_stats u
    {| questionsCreated := questionsCreated s; votesCount := votesCount s + 1;
       points := points s; currentStreak := currentStreak s;
       longestStreak := longestStreak s; lastActivity := lastActivity s;
       badges := badges s; level := level s; experience := experience s |}.

(** [$inc: { 'stats.votesCount': -1, 'stats.points': -10 }] of [deleteVote]. *)
Definition decVote (u : t) : t :=
  let s := stats u in
  with_stats u
    {| questionsCreated := questionsCreated s; votesCount := votesCount s - 1;
       points := points s - 10; currentStreak := currentStreak s;
       longestStreak := longestStreak s; lastActivity := lastActivity s;
       badges := badges s; level := level s; experience := experience s |}.

(** The award of [Badge.awardToUser]: [badges.push(badgeId)] and
    [points += badge.points]. *)
Definition earn (u : t) (b : BadgeId) (reward : Z) : t :=
  let s := stats u in
  with_stats u
    {| questionsCreated := questionsCreated s; votesCount := votesCount s;
       points := points s + reward; currentStreak := currentStreak s;
       longestStreak := longestStreak s; lastActivity := lastActivity s;
       badges := badges s ++ [b]; level := level s; experience := experience s |}.

(** A user as the schema creates it at [now]. *)
Definition new (name : string) (av : option string) (now : Z) : t :=
  {| username := name; avatar := av; stats := default_stats now;
     isActive := true |}.

End User.

(** ** models/Vote.js *)

Module Vote.

Record t := {
  _id : VoteId;
  userId : UserId;
  questionId : QuestionId;
  choice : Choice;
  decisionTime : Z;
  confidence : Z;
  createdAt : Z
}.

Definition key (v : t) : UserId * QuestionId := (userId v, questionId v).

Definition has_key (u : UserId) (q : QuestionId) (v : t) : bool :=
  bool_decide (key v = (u, q)).

(** [Vote.findOne({ userId, questionId })] *)
Definition findOne (coll : list t) (u : UserId) (q : QuestionId) : option t :=
  List.find (has_key u q) coll.

(** [Vote.findById(voteId)] *)
Definition findById (coll : list t) (i : VoteId) : option t :=
  List.find (fun v => bool_decide (_id v = i)) coll.

(** The identifier of the next document. *)
Definition fresh_id (coll : list t) : VoteId :=
  S (fold_right Nat.max O (map _id coll)).

Inductive WriteError := E11000_duplicate_key.

(** An insert: refused when the unique index [{ userId: 1, questionId: 1 }]
    or the unique index of [_id] already holds the key. *)
Definition insert (coll : list t) (v : t) : result WriteError (list t) :=
  if existsb (has_key (userId v) (questionId v)) coll
     || existsb (fun w => bool_decide (_id w = _id v)) coll
  then Err E11000_duplicate_key
  else Ok (coll ++ [v]).

(** [Vote.create({...})]: the document gets a fresh [_id] and its
    [createdAt] timestamp, and is inserted. *)
Definition create (coll : list t) (now : Z) (u : UserId) (q : QuestionId)
    (c : Choice) (decisionTime_ confidence_ : Z) : result WriteError (list t * t) :=
  let v := {| _id := fresh_id coll; userId := u; questionId := q; choice := c;
              decisionTime := decisionTime_; confidence := confidence_;
              createdAt := now |} in
  match insert coll v with
  | Ok coll' => Ok (coll', v)
  | Err e => Err e
  end.

(** [existingVote.choice = choice; existingVote.decisionTime = ...] *)
Definition with_choice (v : t) (c : Choice) (decisionTime_ : Z) : t :=
  {| _id := _id v; userId := userId v; questionId := questionId v;
     choice := c; decisionTime := decisionTime_;
     confidence := confidence v; createdAt := createdAt v |}.

(** [vote.save()] of a document loaded before: the stored document with
    the same [_id] is replaced. *)
Definition save (coll : list t) (v : t) : list t :=
  map (fun w => if bool_decide (_id w = _id v) then v else w) coll.

(** The three writes the server makes to the collection. *)
Inductive Write :=
| w_insert (v : t)
| w_set_choice (i : VoteId) (c : Choice) (decisionTime_ : Z)
| w_delete (i : VoteId).

(** [Vote.findByIdAndDelete(voteId)] *)
Definition findByIdAndDelete (coll : list t) (i : VoteId) : list t :=
  List.filter (fun v => negb (bool_decide (_id v = i))) coll.

(** [Vote.countDocuments({ userId, createdAt: { $gte: startDate } })] *)
Definition countDocuments_since (coll : list t) (u : UserId) (startDate : Z) : Z :=
  Z.of_nat (length (List.filter
    (fun v => bool_decide (userId v = u) && (startDate <=? createdAt v)) coll)).

(** [Vote.countDocuments({ userId })] *)
Definition countDocuments (coll : list t) (u : UserId) : Z :=
  Z.of_nat (length (List.filter (fun v => bool_decide (userId v = u)) coll)).

(** A write as the store executes it; a refused insert changes nothing. *)
Definition write (coll : list t) (w : Write) : list t :=
  match w with
  | w_insert v => match insert coll v with Ok coll' => coll' | Err _ => coll end
  | w_set_choice i c d =>
      match findById coll i with
      | Some v => save coll (with_choice v c d)
      | None => coll
      end
  | w_delete i => findByIdAndDelete coll i
  end.

End Vote.

(** ** models/ChatMessage.js (the fields the badge rules read) *)

Module ChatMessage.

Record t := {
  questionId : QuestionId;
  userId : UserId;
  createdAt : Z
}.

(** [ChatMessage.countDocuments({ userId, createdAt: { $gte: startDate } })] *)
Definition countDocuments_since (coll : list t) (u : UserId) (startDate : Z) : Z :=
  Z.of_nat (length (List.filter
    (fun m => bool_decide (userId m = u) && (startDate <=? createdAt m)) coll)).

End ChatMessage.

(** ** models/Badge.js: the schema *)

Module BadgeDoc.

Record Requirements := {
  type : string;
  threshold : Z;
  timeframe : string;
  consecutive : option bool        (* additionalCriteria?.consecutive *)
}.

Record UnlockConditions := {
  startDate : option Z;
  endDate : option Z;
  requiredBadges : list BadgeId;
  excludedBadges : list BadgeId
}.

Record Statistics := {
  totalEarned : Z;
  firstEarned : option Z;
  lastEarned : option Z;
  earnedBy : list (UserId * Z)
}.

Record t := {
  name : string;
  requirements : Requirements;
  points : Z;
  isActive : bool;
  isSecret : bool;
  unlockConditions : UnlockConditions;
  statistics : Statistics
}.

Definition with_statistics (b : t) (st : Statistics) : t :=
  {| name := name b; requirements := requirements b; points := points b;
     isActive := isActive b; isSecret := isSecret b;
     unlockConditions := unlockConditions b; statistics := st |}.

End BadgeDoc.

(** ** The collections *)

Module Db.

Record t := {
  users : gmap UserId User.t;
  questions : gmap QuestionId Question.t;
  votes : list Vote.t;
  badges : gmap BadgeId BadgeDoc.t;
  chatMessages : list ChatMessage.t
}.

Definition set_users (db : t) (us : gmap UserId User.t) : t :=
  {| users := us; questions := questions db; votes := votes db;
     badges := badges db; chatMessages := chatMessages db |}.

Definition set_questions (db : t) (qs : gmap QuestionId Question.t) : t :=
  {| users := users db; questions := qs; votes := votes db;
     badges := badges db; chatMessages := chatMessages db |}.

Definition set_votes (db : t) (vs : list Vote.t) : t :=
  {| users := users db; questions := questions db; votes := vs;
     badges := badges db; chatMessages := chatMessages db |}.

Definition set_badges (db : t) (bs : gmap BadgeId BadgeDoc.t) : t :=
  {| users := users db; questions := questions db; votes := votes db;
     badges := bs; chatMessages := chatMessages db |}.

(** [question.save()]: the [pre('save')] middleware runs, then the
    document is written. *)
Definition save_question (db : t) (now : Z) (i : QuestionId) (q : Question.t) : t :=
  set_questions db (<[i := Question.pre_save now q]> (questions db)).

(** [Question.countDocuments({ createdBy, createdAt: { $gte: startDate } })] *)
Definition count_questions_since (db : t) (u : UserId) (startDate : Z) : Z :=
  Z.of_nat (length (List.filter
    (fun iq => bool_decide (Question.createdBy (snd iq) = u)
               && (startDate <=? Question.createdAt (snd iq)))
    (map_to_list (questions db)))).

End Db.

(** ** The calendar of [getTimeframeStartDate] *)

Module Calendar.

(** The number of the local day of [t], counted from 1970-01-01. *)
Definition local_day (tz t : Z) : Z := (t + tz) / MS_PER_DAY.

(** [getDay()]: 0 is Sunday; 1970-01-01 was a Thursday. *)
Definition getDay (tz t : Z) : Z := (local_day tz t + 4) mod 7.

(** [getDate()]: the day of the month, 1 to 31, of a day number in the
    proleptic Gregorian calendar. *)
Definition day_of_month (day : Z) : Z :=
  let z := day + 719468 in
  let era := z / 146097 in
  let doe := z - era * 146097 in
  let yoe := (doe - doe / 1460 + doe / 36524 - doe / 146096) / 365 in
  let doy := doe - (365 * yoe + yoe / 4 - yoe / 100) in
  let mp := (5 * doy + 2) / 153 in
  doy - (153 * mp + 2) / 5 + 1.

Definition getDate (tz t : Z) : Z := day_of_month (local_day tz t).

End Calendar.

(** ** models/Badge.js: the statics *)

Module Badge.

Import BadgeDoc.

(** [getTimeframeStartDate(timeframe)] *)
Definition getTimeframeStartDate (tz now : Z) (timeframe : string) : Z :=
  if String.eqb timeframe "daily" then setHours0 tz now
  else if String.eqb timeframe "weekly" then
    setHours0 tz now - Calendar.getDay tz now * MS_PER_DAY
  else if String.eqb timeframe "monthly" then
    setHours0 tz now - (Calendar.getDate tz now - 1) * MS_PER_DAY
  else 0.

(** [user.stats.badges.includes(badgeId)] *)
Definition includes (l : list BadgeId) (b : BadgeId) : bool :=
  existsb (Nat.eqb b) l.

(** The [switch (type)] of [checkUserQualification]: the value compared
    with the threshold, or [None] in the [default] case. *)
Definition currentValue (db : Db.t) (tz now : Z) (userId : UserId)
    (user : User.t) (r : Requirements) : option Z :=
  let s := User.stats user in
  if String.eqb (type r) "vote_count" then
    if String.eqb (timeframe r) "all_time" then Some (User.votesCount s)
    else Some (Vote.countDocuments_since (Db.votes db) userId
                 (getTimeframeStartDate tz now (timeframe r)))
  else if String.eqb (type r) "question_count" then
    if String.eqb (timeframe r) "all_time" then Some (User.questionsCreated s)
    else Some (Db.count_questions_since db userId
                 (getTimeframeStartDate tz now (timeframe r)))
  else if String.eqb (type r) "streak_count" then
    match consecutive r with
    | Some true => Some (User.currentStreak s)
    | _ => Some (User.longestStreak s)
    end
  else if String.eqb (type r) "points_total" then Some (User.points s)
  else if String.eqb (type r) "level_reached" then Some (User.level s)
  else if String.eqb (type r) "social_actions" then
    let startDate :=
      if negb (String.eqb (timeframe r) "all_time")
      then getTimeframeStartDate tz now (timeframe r) else 0 in
    Some (ChatMessage.countDocuments_since (Db.chatMessages db) userId startDate)
  else None.

(** The requirement types the [switch] has a [case] for. *)
Definition recognized (type_ : string) : bool :=
  existsb (String.eqb type_)
    ["vote_count"; "question_count"; "streak_count"; "points_total";
     "level_reached"; "social_actions"]%string.

(** [Badge.checkUserQualification(userId, badgeId)] *)
Definition checkUserQualification (db : Db.t) (tz now : Z)
    (userId : UserId) (badgeId : BadgeId) : bool :=
  match Db.badges db !! badgeId with
  | None => false
  | Some badge =>
    if negb (isActive badge) then false else
    match Db.users db !! userId with
    | None => false
    | Some user =>
      let held := User.badges (User.stats user) in
      let uc := unlockConditions badge in
      if includes held badgeId then false
      else if match startDate uc with Some d => now <? d | None => false end then false
      else if match endDate uc with Some d => d <? now | None => false end then false
      else if negb (forallb (includes held) (requiredBadges uc)) then false
      else if existsb (includes held) (excludedBadges uc) then false
      else
        match currentValue db tz now userId user (requirements badge) with
        | None => false
        | Some v => threshold (requirements badge) <=? v
        end
    end
  end.

(** [Badge.awardToUser(userId, badgeId)] *)
Definition awardToUser (db : Db.t) (now : Z) (userId : UserId)
    (badgeId : BadgeId) : Db.t * bool :=
  match Db.badges db !! badgeId, Db.users db !! userId with
  | Some badge, Some user =>
    if includes (User.badges (User.stats user)) badgeId then (db, false)
    else
      let user' := User.earn user badgeId (points badge) in
      let st := statistics badge in
      let badge' :=
        with_statistics badge
          {| totalEarned := totalEarned st + 1;
             lastEarned := Some now;
             firstEarned := match firstEarned st with
                            | Some d => Some d
                            | None => Some now
                            end;
             earnedBy := earnedBy st ++ [(userId, now)] |} in
      (Db.set_badges (Db.set_users db (<[userId := user']> (Db.users db)))
                     (<[badgeId := badge']> (Db.badges db)),
       true)
  | _, _ => (db, false)
  end.

(** [Badge.find({ isActive: true })] *)
Definition find_active (db : Db.t) : list (BadgeId * BadgeDoc.t) :=
  List.filter (fun ib => isActive (snd ib)) (map_to_list (Db.badges db)).

(** The loop of [submitVote] over the badges found: the badge is awarded
    when the user qualifies, and collected when the award was made. *)
Fixpoint evaluate (db : Db.t) (tz now : Z) (userId : UserId)
    (bs : list (BadgeId * BadgeDoc.t)) : Db.t * list (BadgeId * BadgeDoc.t) :=
  match bs with
  | [] => (db, [])
  | (i, badge) :: rest =>
    if checkUserQualification db tz now userId i then
      let '(db1, awarded) := awardToUser db now userId i in
      let '(db2, earned) := evaluate db1 tz now userId rest in
      (db2, if awarded then (i, badge) :: earned else earned)
    else evaluate db tz now userId rest
  end.

End Badge.

(** ** Socket.IO: rooms, events and emissions *)

Module SocketIO.

(** A room name: [`question_${questionId}`] or [`user_${userId}`]. *)
Inductive Room :=
| question_ (q : QuestionId)
| user_ (u : UserId).

Global Instance Room_eq_dec : EqDecision Room.
Proof. solve_decision. Defined.

(** A connected socket: [socket.user] and the rooms it has joined. *)
Record Socket := {
  userId : UserId;
  username : string;
  avatar : option string;
  rooms : list Room
}.

Record RoomUser := {
  ru_userId : UserId;
  ru_username : string;
  ru_avatar : option string;
  ru_socketId : SocketId
}.

Record Voter := { voter_username : string; voter_avatar : option string }.

(** The server-to-client events of the vote path and of the handler. *)
Inductive Event :=
| user_online (userId : UserId) (username : string) (avatar : option string)
| user_offline (userId : UserId) (username : string) (lastSeen : Z)
| user_joined_room (userId : UserId) (username : string) (avatar : option string)
| user_left_room (userId : UserId) (username : string)
| room_joined (questionId : QuestionId) (activeUsers : nat) (users : list RoomUser)
| room_users (questionId : QuestionId) (users : list RoomUser)
| user_typing (userId : UserId) (username : string) (isTyping : bool)
| vote_activity (userId : UserId) (username : string) (choice : string)
| presence_updated (userId : UserId) (status : string) (lastSeen : Z)
| private_message (from : UserId) (username : string) (avatar : option string)
    (message : string) (timestamp : Z)
| error_ (message : string)
| vote_update (questionId : QuestionId) (choice : Choice)
    (totalVotes optionAPercentage optionBPercentage : Z)
    (voter : option Voter) (type : option string)
| badges_earned (earnedBadges : list (BadgeId * BadgeDoc.t)).

(** One [emit]: the sockets it reaches, and the event. *)
Record Emission := {
  recipients : gset SocketId;
  event : Event
}.

Definition in_room (r : Room) (s : Socket) : bool :=
  bool_decide (r ∈ rooms s).

(** The sockets of a room. *)
Definition members (sockets : gmap SocketId Socket) (r : Room) : gset SocketId :=
  dom (filter (fun kv => in_room r (snd kv) = true) sockets).

(** [io.to(room).emit(...)] *)
Definition io_to (sockets : gmap SocketId Socket) (r : Room) (e : Event) : Emission :=
  {| recipients := members sockets r; event := e |}.

(** [socket.to(room).emit(...)]: the room without the sender. *)
Definition socket_to (sockets : gmap SocketId Socket) (sender : SocketId)
    (r : Room) (e : Event) : Emission :=
  {| recipients := members sockets r ∖ {[sender]}; event := e |}.

(** [socket.broadcast.emit(...)]: every socket but the sender. *)
Definition socket_broadcast (sockets : gmap SocketId Socket) (sender : SocketId)
    (e : Event) : Emission :=
  {| recipients := dom sockets ∖ {[sender]}; event := e |}.

(** [socket.emit(...)] *)
Definition socket_emit (sender : SocketId) (e : Event) : Emission :=
  {| recipients := {[sender]}; event := e |}.

Definition with_rooms (s : Socket) (rs : list Room) : Socket :=
  {| userId := userId s; username := username s; avatar := avatar s;
     rooms := rs |}.

(** [socket.join(room)] *)
Definition join (sockets : gmap SocketId Socket) (sid : SocketId) (r : Room)
    : gmap SocketId Socket :=
  alter (fun s => if in_room r s then s else with_rooms s (rooms s ++ [r])) sid sockets.

(** [socket.leave(room)] *)
Definition leave (sockets : gmap SocketId Socket) (sid : SocketId) (r : Room)
    : gmap SocketId Socket :=
  alter (fun s => with_rooms s (List.filter (fun r' => negb (bool_decide (r' = r))) (rooms s)))
        sid sockets.

(** [io.in(room).fetchSockets()] *)
Definition fetchSockets (sockets : gmap SocketId Socket) (r : Room)
    : list (SocketId * Socket) :=
  List.filter (fun kv => in_room r (snd kv)) (map_to_list sockets).

End SocketIO.

(** ** socket/socketHandler.js *)

Module socketHandler.

Import SocketIO.

(** An entry of the [activeUsers] map, which is keyed by the user id. *)
Record UserData := {
  socketId : SocketId;
  user_id : UserId;
  user_username : string;
  user_avatar : option string;
  connectedAt : Z;
  currentRoom : option Room;
  status : option string;
  lastSeen : option Z
}.

Record State := {
  sockets : gmap SocketId Socket;
  activeUsers : gmap UserId UserData
}.

Definition result : Type := State * list Emission.

Definition set_currentRoom (d : UserData) (r : option Room) : UserData :=
  {| socketId := socketId d; user_id := user_id d;
     user_username := user_username d; user_avatar := user_avatar d;
     connectedAt := connectedAt d; currentRoom := r;
     status := status d; lastSeen := lastSeen d |}.

(** [getRoomUsers(io, roomName)] *)
Definition getRoomUsers (sockets : gmap SocketId Socket) (r : Room) : list RoomUser :=
  map (fun kv => {| ru_userId := userId (snd kv); ru_username := username (snd kv);
                    ru_avatar := avatar (snd kv); ru_socketId := fst kv |})
      (fetchSockets sockets r).

(** The [connection] handler for a socket that authenticated as [u]. *)
Definition handleConnection (st : State) (now : Z) (sid : SocketId)
    (u : UserId) (name : string) (av : option string) : result :=
  let sock := {| userId := u; username := name; avatar := av; rooms := [] |} in
  let sockets1 := <[sid := sock]> (sockets st) in
  let active1 :=
    <[u := {| socketId := sid; user_id := u; user_username := name;
              user_avatar := av; connectedAt := now; currentRoom := None;
              status := None; lastSeen := None |}]> (activeUsers st) in
  let sockets2 := join sockets1 sid (user_ u) in
  ({| sockets := sockets2; activeUsers := active1 |},
   [socket_broadcast sockets2 sid (user_online u name av)]).

(** [socket.on('join_question', ...)] *)
Definition join_question (db : Db.t) (st : State) (sid : SocketId)
    (questionId : QuestionId) : result :=
  match sockets st !! sid with
  | None => (st, [])
  | Some sock =>
    match Db.questions db !! questionId with
    | None => (st, [socket_emit sid (error_ "Question not found")])
    | Some _ =>
      let u := userId sock in
      let '(sockets1, notice) :=
        match activeUsers st !! u with
        | Some {| currentRoom := Some previousRoom |} =>
            let sockets1 := leave (sockets st) sid previousRoom in
            (sockets1,
             [socket_to sockets1 sid previousRoom (user_left_room u (username sock))])
        | _ => (sockets st, [])
        end in
      let roomName := question_ questionId in
      let sockets2 := join sockets1 sid roomName in
      let active2 := alter (fun d => set_currentRoom d (Some roomName)) u (activeUsers st) in
      let roomUsers := getRoomUsers sockets2 roomName in
      ({| sockets := sockets2; activeUsers := active2 |},
       notice ++
       [socket_to sockets2 sid roomName
          (user_joined_room u (username sock) (avatar sock));
        socket_emit sid
          (room_joined questionId (length roomUsers) (firstn 10 roomUsers))])
    end
  end.

(** [socket.on('leave_question', ...)] *)
Definition leave_question (st : State) (sid : SocketId)
    (questionId : QuestionId) : result :=
  match sockets st !! sid with
  | None => (st, [])
  | Some sock =>
    let roomName := question_ questionId in
    let sockets1 := leave (sockets st) sid roomName in
    ({| sockets := sockets1;
        activeUsers := alter (fun d => set_currentRoom d None) (userId sock) (activeUsers st) |},
     [socket_to sockets1 sid roomName
        (user_left_room (userId sock) (username sock))])
  end.

(** [socket.on('typing_start', ...)] and [socket.on('typing_stop', ...)] *)
Definition typing (isTyping : bool) (st : State) (sid : SocketId)
    (questionId : QuestionId) : result :=
  match sockets st !! sid with
  | None => (st, [])
  | Some sock =>
    (st, [socket_to (sockets st) sid (question_ questionId)
            (user_typing (userId sock) (username sock) isTyping)])
  end.

Definition typing_start := typing true.
Definition typing_stop := typing false.

(** [socket.on('vote_cast', ...)] *)
Definition vote_cast (st : State) (sid : SocketId) (questionId : QuestionId)
    (choice : string) : result :=
  match sockets st !! sid with
  | None => (st, [])
  | Some sock =>
    (st, [socket_to (sockets st) sid (question_ questionId)
            (vote_activity (userId sock) (username sock) choice)])
  end.

(** [socket.on('update_presence', ...)] *)
Definition update_presence (st : State) (now : Z) (sid : SocketId)
    (status_ : string) : result :=
  match sockets st !! sid with
  | None => (st, [])
  | Some sock =>
    ({| sockets := sockets st;
        activeUsers :=
          alter (fun d =>
                   {| socketId := socketId d; user_id := user_id d;
                      user_username := user_username d; user_avatar := user_avatar d;
                      connectedAt := connectedAt d; currentRoom := currentRoom d;
                      status := Some status_; lastSeen := Some now |})
                (userId sock) (activeUsers st) |},
     [socket_broadcast (sockets st) sid (presence_updated (userId sock) status_ now)])
  end.

(** [socket.on('get_room_users', ...)] *)
Definition get_room_users (st : State) (sid : SocketId)
    (questionId : QuestionId) : result :=
  (st, [socket_emit sid
          (room_users questionId (getRoomUsers (sockets st) (question_ questionId)))]).

(** [socket.on('private_message', ...)] *)
Definition on_private_message (st : State) (now : Z) (sid : SocketId)
    (recipientId : UserId) (message : string) : result :=
  match sockets st !! sid with
  | None => (st, [])
  | Some sock =>
    (st, [socket_to (sockets st) sid (user_ recipientId)
            (private_message (userId sock) (username sock) (avatar sock) message now)])
  end.

(** The body of [socket.on('disconnect', ...)], in the order of the
    source: the entry is deleted, [user_offline] is broadcast, and the
    entry is looked up again for the room notice. *)
Definition on_disconnect (st : State) (now : Z) (sid : SocketId)
    (sock : Socket) : result :=
  let u := userId sock in
  let active1 := delete u (activeUsers st) in
  let offline := socket_broadcast (sockets st) sid (user_offline u (username sock) now) in
  let notice :=
    match active1 !! u with
    | Some {| currentRoom := Some room |} =>
        [socket_to (sockets st) sid room (user_left_room u (username sock))]
    | _ => []
    end in
  ({| sockets := sockets st; activeUsers := active1 |}, offline :: notice).

(** A socket closes: Socket.IO takes it out of its rooms and of the
    namespace, then fires [disconnect]. *)
Definition disconnect (st : State) (now : Z) (sid : SocketId) : result :=
  match sockets st !! sid with
  | None => (st, [])
  | Some sock =>
    on_disconnect {| sockets := delete sid (sockets st);
                     activeUsers := activeUsers st |} now sid sock
  end.

(** [io.getActiveUsers()] *)
Definition getActiveUsers (st : State) : list UserData :=
  map snd (map_to_list (activeUsers st)).

End socketHandler.

(** ** controllers/voteController.js *)

Module voteController.

Import SocketIO.

(** What reaches the error middleware: an [AppError] passed to [next], an
    exception thrown in the handler, or the write error of the unique
    index. *)
Inductive Failure :=
| AppError (message : string) (statusCode : Z)
| Thrown (message : string)
| DuplicateKey.

(** The database after the request, the events emitted, and the
    response. *)
Record Outcome (R : Type) := {
  db : Db.t;
  emitted : list Emission;
  response : result Failure R
}.
Arguments db {R} _.
Arguments emitted {R} _.
Arguments response {R} _.

Definition fail {R : Type} (d : Db.t) (message : string) (statusCode : Z) : Outcome R :=
  {| db := d; emitted := []; response := Err (AppError message statusCode) |}.

Definition throw {R : Type} (d : Db.t) (message : string) : Outcome R :=
  {| db := d; emitted := []; response := Err (Thrown message) |}.

(** [req.body], after the Joi [voteSchema]. *)
Record VoteBody := {
  choice : Choice;
  decisionTime : option Z;
  confidence : option Z
}.

(** [pointsEarned.levelUp ? pointsEarned : { points: 10 }] *)
Inductive PointsEarned :=
| LevelUp (r : User.AddPointsResult)
| Points (points : Z).

(** The [data] of the 201 response of [submitVote]. *)
Record SubmitVoteData := {
  vote : Vote.t;
  pointsEarned : PointsEarned;
  streak : Z;
  earnedBadges : list (BadgeId * BadgeDoc.t)
}.

(** The [data] of the 200 response of [changeVote]. *)
Record ChangeVoteData := {
  changed_vote : Vote.t
}.

Definition available (question : Question.t) : bool :=
  Question.isActive question
  && bool_decide (Question.moderation_status question = Question.approved).

(** [submitVote] *)
Definition submitVote (d : Db.t) (io : gmap SocketId Socket) (tz now : Z)
    (userId : UserId) (questionId : QuestionId) (body : VoteBody)
    : Outcome SubmitVoteData :=
  match Db.questions d !! questionId with
  | None => fail d "Question not found" 404
  | Some question =>
    if negb (available question) then fail d "Question is not available for voting" 400
    else
    match Vote.findOne (Db.votes d) userId questionId with
    | Some _ => fail d "You have already voted on this question" 400
    | None =>
      match Vote.create (Db.votes d) now userId questionId (choice body)
              (JS.or_default (decisionTime body) 0)
              (JS.or_default (confidence body) 3) with
      | Err _ => {| db := d; emitted := []; response := Err DuplicateKey |}
      | Ok (votes1, vote_) =>
        let d1 := Db.set_votes d votes1 in
        match Question.addVote now question userId (choice_name (choice body))
                (decisionTime body) with
        | Err message => throw d1 message
        | Ok question1 =>
          let d2 := Db.save_question d1 now questionId question1 in
          let question2 := Question.pre_save now question1 in
          match Db.users d2 !! userId with
          | None => throw d2 "TypeError: Cannot read properties of null"
          | Some user =>
            let user1 := User.incVotesCount user in
            let '(user2, earned) := User.addPoints user1 10 in
            let '(user3, newStreak) := User.updateStreak tz now user2 in
            let d3 := Db.set_users d2 (<[userId := user3]> (Db.users d2)) in
            let '(d4, badges) := Badge.evaluate d3 tz now userId (Badge.find_active d3) in
            let s := Question.stats question2 in
            let update :=
              io_to io (question_ questionId)
                (vote_update questionId (choice body)
                   (Question.totalVotes s)
                   (Question.optionAPercentage s)
                   (Question.optionBPercentage s)
                   (Some {| voter_username := User.username user3;
                            voter_avatar := User.avatar user3 |})
                   None) in
            let notice :=
              match badges with
              | [] => []
              | _ :: _ => [io_to io (user_ userId) (badges_earned badges)]
              end in
            {| db := d4;
               emitted := update :: notice;
               response :=
                 Ok {| vote := vote_;
                       pointsEarned := if User.levelUp earned then LevelUp earned
                                       else Points 10;
                       streak := newStreak;
                       earnedBadges := badges |} |}
          end
        end
      end
    end
  end.

Definition CHANGE_LIMIT : Z := 5 * 60 * 1000.

(** [changeVote] *)
Definition changeVote (d : Db.t) (io : gmap SocketId Socket) (now : Z)
    (userId : UserId) (questionId : QuestionId) (body : VoteBody)
    : Outcome ChangeVoteData :=
  match Vote.findOne (Db.votes d) userId questionId with
  | None => fail d "No vote found to change" 404
  | Some existingVote =>
    let voteAge := now - Vote.createdAt existingVote in
    if CHANGE_LIMIT <? voteAge
    then fail d "Vote can only be changed within 5 minutes" 400
    else
    match Db.questions d !! questionId with
    | None => fail d "Question not found" 404
    | Some question =>
      let question1 := Question.removeVote question userId in
      match Question.addVote now question1 userId (choice_name (choice body)) None with
      | Err message => throw d message
      | Ok question2 =>
        let d1 := Db.save_question d now questionId question2 in
        let question3 := Question.pre_save now question2 in
        let vote' :=
          Vote.with_choice existingVote (choice body)
            (JS.or_default (decisionTime body) (Vote.decisionTime existingVote)) in
        let d2 := Db.set_votes d1 (Vote.save (Db.votes d1) vote') in
        let s := Question.stats question3 in
        {| db := d2;
           emitted :=
             [io_to io (question_ questionId)
                (vote_update questionId (choice body)
                   (Question.totalVotes s)
                   (Question.optionAPercentage s)
                   (Question.optionBPercentage s)
                   None (Some "change"))];
           response := Ok {| changed_vote := vote' |} |}
      end
    end
  end.

(** [deleteVote]; the 204 response carries no data. *)
Definition deleteVote (d : Db.t) (now : Z) (voteId : VoteId) : Outcome unit :=
  match Vote.findById (Db.votes d) voteId with
  | None => fail d "Vote not found" 404
  | Some vote_ =>
    let d1 :=
      match Db.questions d !! Vote.questionId vote_ with
      | Some question =>
          Db.save_question d now (Vote.questionId vote_)
            (Question.removeVote question (Vote.userId vote_))
      | None => d
      end in
    let d2 := Db.set_users d1 (alter User.decVote (Vote.userId vote_) (Db.users d1)) in
    let d3 := Db.set_votes d2 (Vote.findByIdAndDelete (Db.votes d2) voteId) in
    {| db := d3; emitted := []; response := Ok tt |}
  end.

End voteController.

(** ** Exhaustive checks on binary64 *)

Module Check.

(** [f] holds of every number below [n]. *)
Fixpoint all_below (f : nat -> bool) (n : nat) : bool :=
  match n with
  | O => true
  | S k => f k && all_below f k
  end.




(** Binary64 and the integer square root give the same level for every
    multiple of [step] below [step * n]. *)
Definition levels_agree (step : Z) (n : nat) : bool :=
  all_below (fun k => User.level_binary64 (step * Z.of_nat k)
                      =? User.level_of_experience (step * Z.of_nat k)) n.

End Check.

(** ** The server: requests and socket events in the order they are handled *)

Module Server.

Record State := {
  db : Db.t;
  io : socketHandler.State
}.

Inductive Input :=
| POST_vote (tz now : Z) (userId : UserId) (questionId : QuestionId)
    (body : voteController.VoteBody)
| PATCH_vote (now : Z) (userId : UserId) (questionId : QuestionId)
    (body : voteController.VoteBody)
| DELETE_vote (now : Z) (voteId : VoteId)
| connection (now : Z) (sid : SocketId) (u : UserId) (name : string)
    (av : option string)
| join_question (sid : SocketId) (questionId : QuestionId)
| leave_question (sid : SocketId) (questionId : QuestionId)
| typing_start (sid : SocketId) (questionId : QuestionId)
| typing_stop (sid : SocketId) (questionId : QuestionId)
| disconnect (now : Z) (sid : SocketId).

Definition of_request {R : Type} (st : State) (o : voteController.Outcome R)
    : State * list SocketIO.Emission :=
  ({| db := voteController.db o; io := io st |}, voteController.emitted o).

Definition of_event (st : State) (r : socketHandler.result)
    : State * list SocketIO.Emission :=
  ({| db := db st; io := fst r |}, snd r).

Definition step (st : State) (i : Input) : State * list SocketIO.Emission :=
  let sockets := socketHandler.sockets (io st) in
  match i with
  | POST_vote tz now u q body =>
      of_request st (voteController.submitVote (db st) sockets tz now u q body)
  | PATCH_vote now u q body =>
      of_request st (voteController.changeVote (db st) sockets now u q body)
  | DELETE_vote now v =>
      of_request st (voteController.deleteVote (db st) now v)
  | connection now sid u name av =>
      of_event st (socketHandler.handleConnection (io st) now sid u name av)
  | join_question sid q =>
      of_event st (socketHandler.join_question (db st) (io st) sid q)
  | leave_question sid q =>
      of_event st (socketHandler.leave_question (io st) sid q)
  | typing_start sid q =>
      of_event st (socketHandler.typing_start (io st) sid q)
  | typing_stop sid q =>
      of_event st (socketHandler.typing_stop (io st) sid q)
  | disconnect now sid =>
      of_event st (socketHandler.disconnect (io st) now sid)
  end.

Definition run (st : State) (inputs : list Input) : State :=
  fold_left (fun st i => fst (step st i)) inputs st.

End Server.

(** ** The writes to a user's statistics *)

Module Progress.

(** Every write the server makes to [user.stats]. *)
Inductive Op :=
| vote (tz now : Z)                 (* submitVote: votesCount += 1; addPoints(10); updateStreak() *)
| add_points (p : N)                (* addPoints(p) *)
| update_streak (tz now : Z)        (* updateStreak() *)
| earn (b : BadgeId) (reward : Z)   (* Badge.awardToUser *)
| unvote.                           (* deleteVote: $inc votesCount -1, points -10 *)

Definition step (u : User.t) (op : Op) : User.t :=
  match op with
  | vote tz now =>
      fst (User.updateStreak tz now (fst (User.addPoints (User.incVotesCount u) 10)))
  | add_points p => fst (User.addPoints u (Z.of_N p))
  | update_streak tz now => fst (User.updateStreak tz now u)
  | earn b reward => User.earn u b reward
  | unvote => User.decVote u
  end.

Definition run (u : User.t) (ops : list Op) : User.t := fold_left step ops u.

End Progress.

(** ** Sample data *)

Module Sample.

Definition entry (u : UserId) : Question.VoteEntry :=
  {| Question.userId := u; Question.votedAt := 0; Question.decisionTime := 0 |}.

(** An approved, active question of user 1 without votes. *)
Definition question0 : Question.t :=
  {| Question.createdBy := 1%nat; Question.type := Question.user;
     Question.votesA := []; Question.votesB := [];
     Question.stats := Question.default_stats;
     Question.moderation_status := Question.approved;
     Question.moderatedAt := None;
     Question.isActive := true; Question.createdAt := 0 |}.


Definition ann : User.t := User.new "ann" None 0.
Definition bob : User.t := User.new "bob" None 0.

(** The vote of user 1 on question 1, cast at time 0. *)
Definition vote1 : Vote.t :=
  {| Vote._id := 1%nat; Vote.userId := 1%nat; Vote.questionId := 1%nat;
     Vote.choice := optionA; Vote.decisionTime := 0; Vote.confidence := 3;
     Vote.createdAt := 0 |}.

(** Question 1 with that vote counted. *)
Definition question1 : Question.t :=
  Question.updateStats (Question.with_votes question0 [entry 1%nat] []).

(** The same question with a second vote for option A, of user 2. *)
Definition question1' : Question.t :=
  Question.updateStats (Question.with_votes question0 [entry 1%nat; entry 2%nat] []).

(** Question 1 after a moderator has deactivated it. *)
Definition question1_closed : Question.t :=
  {| Question.createdBy := 1%nat; Question.type := Question.user;
     Question.votesA := [entry 1%nat]; Question.votesB := [];
     Question.stats := Question.stats question1;
     Question.moderation_status := Question.approved;
     Question.moderatedAt := None;
     Question.isActive := false; Question.createdAt := 0 |}.

Definition db_with (qs : gmap QuestionId Question.t) (vs : list Vote.t) : Db.t :=
  {| Db.users := {[ 1%nat := ann; 2%nat := bob ]};
     Db.questions := qs;
     Db.votes := vs;
     Db.badges := ∅;
     Db.chatMessages := [] |}.

Definition db_empty : Db.t := db_with {[ 1%nat := question0 ]} [].
Definition db_voted : Db.t := db_with {[ 1%nat := question1 ]} [vote1].
Definition db_closed : Db.t := db_with {[ 1%nat := question1_closed ]} [vote1].
Definition db_orphan : Db.t := db_with ∅ [vote1].

(** The vote of user 2 on question 1, and the database that holds both. *)
Definition vote2 : Vote.t :=
  {| Vote._id := 2%nat; Vote.userId := 2%nat; Vote.questionId := 1%nat;
     Vote.choice := optionA; Vote.decisionTime := 0; Vote.confidence := 3;
     Vote.createdAt := 0 |}.

Definition db_voted2 : Db.t := db_with {[ 1%nat := question1' ]} [vote1; vote2].

Definition choose (c : Choice) : voteController.VoteBody :=
  {| voteController.choice := c; voteController.decisionTime := None;
     voteController.confidence := None |}.

Definition badge (type_ : string) (threshold_ points_ : Z) : BadgeDoc.t :=
  {| BadgeDoc.name := type_;
     BadgeDoc.requirements :=
       {| BadgeDoc.type := type_; BadgeDoc.threshold := threshold_;
          BadgeDoc.timeframe := "all_time"; BadgeDoc.consecutive := None |};
     BadgeDoc.points := points_;
     BadgeDoc.isActive := true; BadgeDoc.isSecret := false;
     BadgeDoc.unlockConditions :=
       {| BadgeDoc.startDate := None; BadgeDoc.endDate := None;
          BadgeDoc.requiredBadges := []; BadgeDoc.excludedBadges := [] |};
     BadgeDoc.statistics :=
       {| BadgeDoc.totalEarned := 0; BadgeDoc.firstEarned := None;
          BadgeDoc.lastEarned := None; BadgeDoc.earnedBy := [] |} |}.

(** Three badges: for one vote (5 points), for a special event (a type of
    the schema that the [switch] has no case for), and for 10 points
    (20 points). *)
Definition first_vote : BadgeDoc.t := badge "vote_count" 1 5.
Definition event : BadgeDoc.t := badge "special_event" 1 100.
Definition collector : BadgeDoc.t := badge "points_total" 10 20.

(** The database after user 1 has voted once, with the three badges. *)
Definition db_badges : Db.t :=
  {| Db.users :=
       {[ 1%nat := fst (User.addPoints (User.incVotesCount ann) 10); 2%nat := bob ]};
     Db.questions := {[ 1%nat := question1 ]};
     Db.votes := [vote1];
     Db.badges := {[ 1%nat := first_vote; 2%nat := event; 3%nat := collector ]};
     Db.chatMessages := [] |}.

Definition offline : socketHandler.State :=
  {| socketHandler.sockets := ∅; socketHandler.activeUsers := ∅ |}.

(** Ann on socket 10 and Bob on socket 20, both in the room of question 1. *)
Definition in_room : Server.State :=
  Server.run {| Server.db := db_voted; Server.io := offline |}
    [Server.connection 0 10%nat 1%nat "ann" None;
     Server.connection 0 20%nat 2%nat "bob" None;
     Server.join_question 10%nat 1%nat;
     Server.join_question 20%nat 1%nat].

End Sample.

(** ** Invariants *)

(** The stored level agrees with the experience, which is not negative. *)
Definition level_consistent (u : User.t) : Prop :=
  User.level (User.stats u) = User.level_of_experience (User.experience (User.stats u))
  /\ 0 <= User.experience (User.stats u).

(** No two stored votes share the pair (user, question), nor the [_id]. *)
Definition votes_unique (coll : list Vote.t) : Prop :=
  List.NoDup (map Vote.key coll) /\ List.NoDup (map Vote._id coll).

Definition at_most_one_vote (coll : list Vote.t) (u : UserId) (q : QuestionId) : Prop :=
  (length (List.filter (Vote.has_key u q) coll) <= 1)%nat.

(** The badges a user holds, the user's points, and the reward of a
    badge, as the database has them. *)
Definition held (d : Db.t) (u : UserId) : list BadgeId :=
  match Db.users d !! u with
  | Some user => User.badges (User.stats user)
  | None => []
  end.

Definition points_of (d : Db.t) (u : UserId) : Z :=
  match Db.users d !! u with
  | Some user => User.points (User.stats user)
  | None => 0
  end.

Definition reward (d : Db.t) (b : BadgeId) : Z :=
  match Db.badges d !! b with
  | Some badge => BadgeDoc.points badge
  | None => 0
  end.

Definition sum_rewards (d : Db.t) (bs : list BadgeId) : Z :=
  fold_right (fun b acc => reward d b + acc) 0 bs.

(** The badge [i] exists and its requirement type has no [case]. *)
Definition unrecognized (d : Db.t) (i : BadgeId) : Prop :=
  exists badge, Db.badges d !! i = Some badge /\
    Badge.recognized (BadgeDoc.type (BadgeDoc.requirements badge)) = false.

(** The users with an entry in one of the two option lists. *)
Definition voters (q : Question.t) : list UserId :=
  map Question.userId (Question.votesA q ++ Question.votesB q).

(** The number of entries a user has in the two option lists. *)
Definition entries (q : Question.t) (u : UserId) : nat :=
  length (List.filter (Question.voted_by u) (Question.votesA q ++ Question.votesB q)).


(** The statistics an award does not write. *)
Definition progress_kept (a b : User.Stats) : Prop :=
  User.questionsCreated a = User.questionsCreated b /\
  User.votesCount a = User.votesCount b /\
  User.experience a = User.experience b /\
  User.level a = User.level b /\
  User.currentStreak a = User.currentStreak b /\
  User.longestStreak a = User.longestStreak b /\
  User.lastActivity a = User.lastActivity b.

(** The rooms a socket is in; none when it is not connected. *)
Definition rooms_of (sockets : gmap SocketId SocketIO.Socket) (sid : SocketId)
    : list SocketIO.Room :=
  match sockets !! sid with
  | Some s => SocketIO.rooms s
  | None => []
  end.

(** * Properties *)

(** ** Vote tallies and percentages *)

Section Tally.

Lemma all_below_spec (f : nat -> bool) (n : nat) :
  Check.all_below f n = true -> forall k, (k < n)%nat -> f k = true.
Proof.
  induction n as [|n IH]; simpl; intros H k Hk; [lia|].
  apply andb_true_iff in H as [Hn Hrest].
  destruct (decide (k = n)) as [->|Hne]; [exact Hn|].
  apply IH; [exact Hrest|lia].
Qed.





(** What [updateStats] leaves in the three tally fields. *)
Lemma updateStats_tally q :
  let s := Question.stats (Question.updateStats q) in
  let a := Z.of_nat (length (Question.votesA q)) in
  let b := Z.of_nat (length (Question.votesB q)) in
  Question.totalVotes s = a + b /\
  Question.optionAPercentage s
    = (if 0 <? a + b then Question.percentage a (a + b) else 0) /\
  Question.optionBPercentage s
    = (if 0 <? a + b then Question.percentage b (a + b) else 0).
Proof.
  unfold Question.updateStats. simpl.
  destruct (0 <? _); auto.
Qed.


End Tally.

(** ** C2: the percentages after a vote is added or removed *)

Section C2.




End C2.

(** ** C3: the level is a function of the experience *)

Section C3.

(** [level_of_experience e] is the [k + 1] with
    [k <= sqrt (e / 100) < k + 1] over the reals. *)
Lemma level_of_experience_bounds (e : Z) :
  0 <= e ->
  let k := User.level_of_experience e - 1 in
  0 <= k /\ 100 * (k * k) <= e < 100 * ((k + 1) * (k + 1)).
Proof.
  intros He. unfold User.level_of_experience. cbv zeta.
  replace (Z.sqrt (e / 100) + 1 - 1) with (Z.sqrt (e / 100)) by lia.
  assert (0 <= e / 100) as Hq by (apply Z.div_pos; lia).
  pose proof (Z.sqrt_spec (e / 100) Hq) as Hs. cbv zeta in Hs.
  pose proof (Z.sqrt_nonneg (e / 100)).
  pose proof (Z.div_mod e 100 ltac:(lia)).
  pose proof (Z.mod_pos_bound e 100 ltac:(lia)).
  unfold Z.succ in Hs. split; [lia|]. split; nia.
Qed.

Lemma levels_agree_spec (step : Z) (n k : nat) :
  Check.levels_agree step n = true -> (k < n)%nat ->
  User.level_binary64 (step * Z.of_nat k)
  = User.level_of_experience (step * Z.of_nat k).
Proof.
  unfold Check.levels_agree. intros H Hk.
  pose proof (all_below_spec _ _ H k Hk) as Hn.
  cbv beta in Hn. apply Z.eqb_eq in Hn. exact Hn.
Qed.

Lemma levels_checked : Check.levels_agree 10 2001 = true.
Proof. vm_compute. reflexivity. Qed.

(** Binary64 computes the same level for every experience a vote can
    leave, up to 20000. *)
Lemma level_binary64_agrees (k : Z) :
  0 <= k <= 2000 ->
  User.level_binary64 (10 * k) = User.level_of_experience (10 * k).
Proof.
  intros Hk.
  pose proof (levels_agree_spec 10 2001 (Z.to_nat k) levels_checked ltac:(lia)) as Hn.
  rewrite Z2Nat.id in Hn by lia. exact Hn.
Qed.

Lemma level_of_experience_mono (e e' : Z) :
  e <= e' -> User.level_of_experience e <= User.level_of_experience e'.
Proof.
  intros H. unfold User.level_of_experience.
  apply Z.add_le_mono_r, Z.sqrt_le_mono, Z.div_le_mono; lia.
Qed.

Lemma addPoints_fields (u : User.t) (p : Z) :
  let u' := fst (User.addPoints u p) in
  let r := snd (User.addPoints u p) in
  User.points (User.stats u') = User.points (User.stats u) + p /\
  User.experience (User.stats u') = User.experience (User.stats u) + p /\
  User.newLevel r = User.level_of_experience (User.experience (User.stats u) + p) /\
  User.level (User.stats u') = Z.max (User.level (User.stats u)) (User.newLevel r) /\
  User.levelUp r = (User.level (User.stats u) <? User.newLevel r).
Proof.
  unfold User.addPoints. cbv zeta.
  destruct (User.level (User.stats u) <?
            User.level_of_experience (User.experience (User.stats u) + p)) eqn:E;
    simpl; rewrite ?E; repeat split; try reflexivity.
  - apply Z.ltb_lt in E. lia.
  - apply Z.ltb_ge in E. lia.
Qed.

Lemma addPoints_consistent (u : User.t) (p : Z) :
  0 <= p -> level_consistent u -> level_consistent (fst (User.addPoints u p)).
Proof.
  intros Hp [Hl He].
  destruct (addPoints_fields u p) as (_ & Hexp & Hnew & Hlev & _).
  unfold level_consistent. rewrite Hlev, Hexp, Hnew, Hl.
  pose proof (level_of_experience_mono (User.experience (User.stats u))
                (User.experience (User.stats u) + p) ltac:(lia)).
  split; lia.
Qed.

Lemma updateStreak_level tz now (u : User.t) :
  let u' := fst (User.updateStreak tz now u) in
  User.level (User.stats u') = User.level (User.stats u) /\
  User.experience (User.stats u') = User.experience (User.stats u) /\
  User.points (User.stats u') = User.points (User.stats u) /\
  User.badges (User.stats u') = User.badges (User.stats u) /\
  User.votesCount (User.stats u') = User.votesCount (User.stats u).
Proof.
  unfold User.updateStreak. cbv zeta.
  destruct (_ =? 0); [auto|]. destruct (_ =? 1); simpl; auto.
Qed.

Lemma step_consistent (u : User.t) (op : Progress.Op) :
  level_consistent u -> level_consistent (Progress.step u op).
Proof.
  intros H. destruct op as [tz now|p|tz now|b reward|]; simpl.
  - destruct (updateStreak_level tz now
                (fst (User.addPoints (User.incVotesCount u) 10))) as (Hl & He & _).
    unfold level_consistent. rewrite Hl, He.
    apply addPoints_consistent; [lia|exact H].
  - apply addPoints_consistent; [lia|exact H].
  - destruct (updateStreak_level tz now u) as (Hl & He & _).
    unfold level_consistent. rewrite Hl, He. exact H.
  - exact H.
  - exact H.
Qed.

Lemma run_consistent (ops : list Progress.Op) (u : User.t) :
  level_consistent u -> level_consistent (Progress.run u ops).
Proof.
  revert u. induction ops as [|op ops IH]; intros u H; [exact H|].
  simpl. apply IH, step_consistent, H.
Qed.


End C3.

(** ** C4: the streak *)

Section C4.

Lemma setHours0_local_day (tz t : Z) :
  setHours0 tz t = MS_PER_DAY * Calendar.local_day tz t - tz.
Proof.
  unfold setHours0, Calendar.local_day.
  pose proof (Z.div_mod (t + tz) MS_PER_DAY ltac:(discriminate)). lia.
Qed.

(** [daysDiff] is the difference of the two local calendar days. *)
Lemma daysDiff_local_days (tz now last : Z) :
  User.daysDiff tz now last
  = Calendar.local_day tz now - Calendar.local_day tz last.
Proof.
  unfold User.daysDiff. rewrite !setHours0_local_day.
  replace (MS_PER_DAY * Calendar.local_day tz now - tz
           - (MS_PER_DAY * Calendar.local_day tz last - tz))
    with ((Calendar.local_day tz now - Calendar.local_day tz last) * MS_PER_DAY)
    by lia.
  apply Z.div_mul. discriminate.
Qed.




End C4.

(** ** C1: one vote per user and question *)

Section C1.

Lemma existsb_false_not_in {A B : Type} `{EqDecision B} (f : A -> B) (b : B) (l : list A) :
  existsb (fun a => bool_decide (f a = b)) l = false -> ~ In b (map f l).
Proof.
  intros H Hin. apply in_map_iff in Hin as (a & <- & Ha).
  assert (existsb (fun a' => bool_decide (f a' = f a)) l = true) as Ht.
  { apply existsb_exists. exists a. split; [exact Ha|]. apply bool_decide_eq_true. reflexivity. }
  congruence.
Qed.

Lemma NoDup_map_app_fresh {A B : Type} (f : A -> B) (l : list A) (a : A) :
  List.NoDup (map f l) -> ~ In (f a) (map f l) -> List.NoDup (map f (l ++ [a])).
Proof.
  intros Hnd Hfresh. rewrite map_app. simpl.
  induction (map f l) as [|b bs IH]; simpl.
  - constructor; [intros []|constructor].
  - apply List.NoDup_cons_iff in Hnd as [Hb Hbs].
    constructor.
    + rewrite in_app_iff. simpl. intros [Hin|[Heq|[]]]; [tauto|].
      apply Hfresh. left. symmetry. exact Heq.
    + apply IH; [exact Hbs|]. intros Hin. apply Hfresh. right. exact Hin.
Qed.

Lemma NoDup_map_filter {A B : Type} (f : A -> B) (p : A -> bool) (l : list A) :
  List.NoDup (map f l) -> List.NoDup (map f (List.filter p l)).
Proof.
  induction l as [|a l IH]; simpl; intros H; [constructor|].
  apply List.NoDup_cons_iff in H as [Ha Hl].
  destruct (p a); simpl; [|auto].
  constructor; [|auto].
  intros Hin. apply Ha. apply in_map_iff in Hin as (x & Hx & Hin).
  apply in_map_iff. exists x. split; [exact Hx|].
  apply filter_In in Hin. tauto.
Qed.

Lemma NoDup_map_inj_in {A B : Type} (f : A -> B) (l : list A) (x y : A) :
  List.NoDup (map f l) -> In x l -> In y l -> f x = f y -> x = y.
Proof.
  induction l as [|a l IH]; simpl; intros Hnd Hx Hy Hxy; [tauto|].
  apply List.NoDup_cons_iff in Hnd as [Ha Hl].
  destruct Hx as [->|Hx], Hy as [->|Hy]; auto.
  - exfalso. apply Ha. rewrite Hxy. apply in_map. exact Hy.
  - exfalso. apply Ha. rewrite <- Hxy. apply in_map. exact Hx.
Qed.

Lemma insert_unique (coll coll' : list Vote.t) (v : Vote.t) :
  votes_unique coll -> Vote.insert coll v = Ok coll' -> votes_unique coll'.
Proof.
  intros [Hk Hi]. unfold Vote.insert.
  destruct (existsb _ coll) eqn:E1; [discriminate|].
  destruct (existsb (fun w => bool_decide (Vote._id w = Vote._id v)) coll) eqn:E2;
    [discriminate|].
  simpl. intros [= <-]. split.
  - apply NoDup_map_app_fresh; [exact Hk|].
    apply (existsb_false_not_in Vote.key (Vote.key v)). exact E1.
  - apply NoDup_map_app_fresh; [exact Hi|].
    apply (existsb_false_not_in Vote._id (Vote._id v)). exact E2.
Qed.

Lemma save_with_choice_unique (coll : list Vote.t) (v : Vote.t) (c : Choice) (d : Z) :
  votes_unique coll -> In v coll ->
  votes_unique (Vote.save coll (Vote.with_choice v c d)).
Proof.
  intros [Hk Hi] Hv. unfold Vote.save.
  assert (forall (T : Type) (f : Vote.t -> T),
            f (Vote.with_choice v c d) = f v ->
            map f (map (fun w => if bool_decide (Vote._id w = Vote._id (Vote.with_choice v c d))
                                 then Vote.with_choice v c d else w) coll)
            = map f coll) as Hmap.
  { intros T f Hf. rewrite map_map. apply map_ext_in. intros w Hw.
    destruct (bool_decide (Vote._id w = Vote._id (Vote.with_choice v c d))) eqn:E;
      [|reflexivity].
    apply bool_decide_eq_true in E. simpl in E.
    rewrite Hf. f_equal. symmetry.
    apply (NoDup_map_inj_in Vote._id coll); assumption. }
  split; rewrite Hmap; auto.
Qed.

Lemma delete_unique (coll : list Vote.t) (i : VoteId) :
  votes_unique coll -> votes_unique (Vote.findByIdAndDelete coll i).
Proof.
  intros [Hk Hi]. split; apply NoDup_map_filter; assumption.
Qed.

Lemma find_in {A : Type} (p : A -> bool) (l : list A) (a : A) :
  List.find p l = Some a -> In a l /\ p a = true.
Proof. apply find_some. Qed.

(** The store keeps the index whatever is written to it. *)
Lemma write_unique (coll : list Vote.t) (w : Vote.Write) :
  votes_unique coll -> votes_unique (Vote.write coll w).
Proof.
  intros H. destruct w as [v|i c d|i]; simpl.
  - destruct (Vote.insert coll v) eqn:E; [|exact H].
    eapply insert_unique; eauto.
  - destruct (Vote.findById coll i) eqn:E; [|exact H].
    apply save_with_choice_unique; [exact H|].
    apply find_in in E. tauto.
  - apply delete_unique, H.
Qed.

Lemma unique_at_most_one (coll : list Vote.t) (u : UserId) (q : QuestionId) :
  votes_unique coll -> at_most_one_vote coll u q.
Proof.
  intros [Hk _]. unfold at_most_one_vote.
  induction coll as [|v coll IH]; simpl; [lia|].
  simpl in Hk. apply List.NoDup_cons_iff in Hk as [Hv Hk].
  destruct (Vote.has_key u q v) eqn:E; [|auto].
  apply bool_decide_eq_true in E.
  assert (List.filter (Vote.has_key u q) coll = []) as ->; [|simpl; lia].
  destruct (List.filter (Vote.has_key u q) coll) as [|w ws] eqn:Ef; [reflexivity|].
  exfalso. apply Hv.
  assert (In w (List.filter (Vote.has_key u q) coll)) as Hw by (rewrite Ef; left; reflexivity).
  apply filter_In in Hw as [Hw Hkey]. apply bool_decide_eq_true in Hkey.
  rewrite E, <- Hkey. apply in_map. exact Hw.
Qed.

Lemma awardToUser_frame (d : Db.t) (now : Z) (u : UserId) (b : BadgeId) :
  let d' := fst (Badge.awardToUser d now u b) in
  Db.votes d' = Db.votes d /\ Db.questions d' = Db.questions d /\
  Db.chatMessages d' = Db.chatMessages d.
Proof.
  unfold Badge.awardToUser.
  destruct (Db.badges d !! b); [|auto].
  destruct (Db.users d !! u); [|auto].
  destruct (Badge.includes _ _); auto.
Qed.

Lemma evaluate_frame (bs : list (BadgeId * BadgeDoc.t)) (d : Db.t) (tz now : Z) (u : UserId) :
  let d' := fst (Badge.evaluate d tz now u bs) in
  Db.votes d' = Db.votes d /\ Db.questions d' = Db.questions d /\
  Db.chatMessages d' = Db.chatMessages d.
Proof.
  revert d. induction bs as [|[i b] bs IH]; intros d; simpl; [auto|].
  destruct (Badge.checkUserQualification d tz now u i); [|apply IH].
  pose proof (awardToUser_frame d now u i) as Ha.
  destruct (Badge.awardToUser d now u i) as [d1 awarded].
  specialize (IH d1).
  destruct (Badge.evaluate d1 tz now u bs) as [d2 earned].
  simpl in *. intuition congruence.
Qed.

(** [submitVote] leaves the collection as it is or inserts one vote. *)
Lemma submitVote_votes d io tz now u q body :
  let o := voteController.submitVote d io tz now u q body in
  Db.votes (voteController.db o) = Db.votes d \/
  exists v, Vote.insert (Db.votes d) v = Ok (Db.votes (voteController.db o)).
Proof.
  unfold voteController.submitVote.
  destruct (Db.questions d !! q) as [question|]; [|left; reflexivity].
  destruct (negb (voteController.available question)); [left; reflexivity|].
  destruct (Vote.findOne (Db.votes d) u q); [left; reflexivity|].
  unfold Vote.create.
  destruct (Vote.insert (Db.votes d) _) as [votes1|] eqn:Ei; [|left; reflexivity].
  right. eexists. rewrite Ei. f_equal.
  destruct (Question.addVote now question u _ _) as [question1|]; [|reflexivity].
  destruct (Db.users _ !! u) as [user|]; [|reflexivity].
  destruct (User.addPoints _ 10) as [user2 earned].
  destruct (User.updateStreak tz now user2) as [user3 newStreak].
  match goal with
  | |- context [Badge.evaluate ?d3 tz now u ?bs] =>
      pose proof (evaluate_frame bs d3 tz now u) as Hf;
      destruct (Badge.evaluate d3 tz now u bs) as [d4 badges]
  end.
  simpl in *. destruct Hf as [-> _]. reflexivity.
Qed.

Lemma removeVote_not_voted (question : Question.t) (u : UserId) :
  Question.hasUserVoted (Question.removeVote question u) u = None.
Proof.
  unfold Question.hasUserVoted, Question.removeVote. simpl.
  assert (forall l, existsb (Question.voted_by u)
                      (List.filter (fun vote => negb (Question.voted_by u vote)) l) = false) as H.
  { intros l. apply not_true_iff_false. intros Hex.
    apply existsb_exists in Hex as (x & Hin & Hx).
    apply filter_In in Hin as [_ Hn]. rewrite Hx in Hn. discriminate Hn. }
  rewrite !H. reflexivity.
Qed.

(** After [removeVote], [addVote] with a validated choice does not throw. *)
Lemma addVote_after_removeVote now (question : Question.t) (u : UserId) (c : Choice) dt :
  exists question2,
    Question.addVote now (Question.removeVote question u) u (choice_name c) dt
    = Ok question2.
Proof.
  unfold Question.addVote. rewrite removeVote_not_voted.
  destruct c; simpl; eauto.
Qed.

(** [changeVote] leaves the collection as it is or rewrites the choice of
    one stored vote. *)
Lemma changeVote_votes d io now u q body :
  let o := voteController.changeVote d io now u q body in
  Db.votes (voteController.db o) = Db.votes d \/
  exists v c dt, In v (Db.votes d) /\
    Db.votes (voteController.db o) = Vote.save (Db.votes d) (Vote.with_choice v c dt).
Proof.
  unfold voteController.changeVote.
  destruct (Vote.findOne (Db.votes d) u q) as [v|] eqn:Ef; [|left; reflexivity].
  destruct (voteController.CHANGE_LIMIT <? _); [left; reflexivity|].
  destruct (Db.questions d !! q) as [question|]; [|left; reflexivity].
  destruct (Question.addVote now _ u _ None); [|left; reflexivity].
  right. exists v. do 2 eexists. split; [|reflexivity].
  apply find_in in Ef. tauto.
Qed.

Lemma deleteVote_votes d now i :
  let o := voteController.deleteVote d now i in
  Db.votes (voteController.db o) = Db.votes d \/
  Db.votes (voteController.db o) = Vote.findByIdAndDelete (Db.votes d) i.
Proof.
  unfold voteController.deleteVote.
  destruct (Vote.findById (Db.votes d) i) as [v|]; [|left; reflexivity].
  right. simpl. destruct (Db.questions d !! Vote.questionId v); reflexivity.
Qed.

Lemma step_votes_unique (st : Server.State) (i : Server.Input) :
  votes_unique (Db.votes (Server.db st)) ->
  votes_unique (Db.votes (Server.db (fst (Server.step st i)))).
Proof.
  intros H. destruct i; simpl; try exact H.
  - destruct (submitVote_votes (Server.db st)
                (socketHandler.sockets (Server.io st)) tz now userId questionId body)
      as [->|[v Hv]]; [exact H|].
    eapply insert_unique; eauto.
  - destruct (changeVote_votes (Server.db st)
                (socketHandler.sockets (Server.io st)) now userId questionId body)
      as [->|(v & c & dt & Hin & ->)]; [exact H|].
    apply save_with_choice_unique; assumption.
  - destruct (deleteVote_votes (Server.db st) now voteId) as [->| ->]; [exact H|].
    apply delete_unique, H.
Qed.

Lemma run_votes_unique (inputs : list Server.Input) (st : Server.State) :
  votes_unique (Db.votes (Server.db st)) ->
  votes_unique (Db.votes (Server.db (Server.run st inputs))).
Proof.
  revert st. induction inputs as [|i inputs IH]; intros st H; [exact H|].
  simpl. apply IH, step_votes_unique, H.
Qed.

Lemma writes_unique (writes : list Vote.Write) (coll : list Vote.t) :
  votes_unique coll -> votes_unique (fold_left Vote.write writes coll).
Proof.
  revert coll. induction writes as [|w writes IH]; intros coll H; [exact H|].
  simpl. apply IH, write_unique, H.
Qed.

(** C1, as stated, fails in the error it names: the question checks of
    [submitVote] run before the vote lookup, so a second vote on a
    question that has been deactivated is refused as unavailable. *)
Lemma C1_counterexample_closed_question :
  ~ (forall d io tz now u q body v,
       Vote.findOne (Db.votes d) u q = Some v ->
       voteController.response (voteController.submitVote d io tz now u q body)
       = Err (voteController.AppError "You have already voted on this question" 400)).
Proof.
  intros H.
  specialize (H Sample.db_closed ∅ 0 1000 1%nat 1%nat (Sample.choose optionB)
                Sample.vote1 eq_refl).
  vm_compute in H. discriminate H.
Qed.

(** C1 (amended).  At most one Vote exists for a pair (user, question)
    after any sequence of requests and socket events, and after any
    sequence of writes to the collection itself, where the unique index
    refuses the duplicate.  A [submitVote] for a pair that has a Vote
    creates nothing, emits nothing and fails: with the already-voted
    error when the question exists and is open for voting, and with the
    question's own error (not found, not available) otherwise. *)
Theorem C1_one_vote_per_user_and_question :
  (forall st inputs u q,
     votes_unique (Db.votes (Server.db st)) ->
     at_most_one_vote (Db.votes (Server.db (Server.run st inputs))) u q) /\
  (forall coll writes u q,
     votes_unique coll ->
     at_most_one_vote (fold_left Vote.write writes coll) u q) /\
  (forall d io tz now u q body v,
     Vote.findOne (Db.votes d) u q = Some v ->
     let o := voteController.submitVote d io tz now u q body in
     voteController.db o = d /\
     voteController.emitted o = [] /\
     voteController.response o
     = Err (match Db.questions d !! q with
            | None => voteController.AppError "Question not found" 404
            | Some question =>
                if voteController.available question
                then voteController.AppError "You have already voted on this question" 400
                else voteController.AppError "Question is not available for voting" 400
            end)).
Proof.
  split; [|split].
  - intros st inputs u q H. apply unique_at_most_one, run_votes_unique, H.
  - intros coll writes u q H. apply unique_at_most_one, writes_unique, H.
  - intros d io tz now u q body v Hv. cbv zeta.
    unfold voteController.submitVote.
    destruct (Db.questions d !! q) as [question|]; [|auto].
    destruct (voteController.available question); simpl; [|auto].
    rewrite Hv. auto.
Qed.

Lemma C1_one_vote_per_user_and_question_witness :
  votes_unique (Db.votes Sample.db_empty) /\
  at_most_one_vote
    (Db.votes (Server.db
       (Server.run {| Server.db := Sample.db_empty; Server.io := Sample.offline |}
          [Server.POST_vote 0 1000 1%nat 1%nat (Sample.choose optionA);
           Server.POST_vote 0 2000 1%nat 1%nat (Sample.choose optionB)])))
    1%nat 1%nat.
Proof.
  assert (votes_unique (Db.votes Sample.db_empty)) as H.
  { split; constructor. }
  split; [exact H|].
  apply (proj1 C1_one_vote_per_user_and_question). exact H.
Defined.

End C1.

(** ** C5 and C10: changing a vote *)

Section ChangeVote.

Lemma updateStats_idempotent (q : Question.t) :
  Question.updateStats (Question.updateStats q) = Question.updateStats q.
Proof.
  unfold Question.updateStats. simpl.
  destruct (0 <? _); simpl; [|reflexivity].
  destruct (0 <? Question.views (Question.stats q)); reflexivity.
Qed.

Lemma pre_save_updateStats now (q : Question.t) :
  let q' := Question.pre_save now (Question.updateStats q) in
  Question.votesA q' = Question.votesA q /\
  Question.votesB q' = Question.votesB q /\
  Question.stats q' = Question.stats (Question.updateStats q) /\
  Question.stats (Question.updateStats q') = Question.stats q'.
Proof.
  unfold Question.pre_save. rewrite updateStats_idempotent.
  destruct (Question.type (Question.updateStats q)),
           (Question.moderation_status (Question.updateStats q));
    simpl; repeat split; try reflexivity;
    try (change (Question.stats (Question.updateStats (Question.updateStats q))
                 = Question.stats (Question.updateStats q));
         rewrite updateStats_idempotent; reflexivity).
  all: unfold Question.updateStats; simpl;
       destruct (0 <? _); simpl; [|reflexivity];
       destruct (0 <? Question.views (Question.stats q)); reflexivity.
Qed.

(** C5, as stated, fails twice.  A vote whose question is gone is inside
    the window and still cannot be changed; and the response of a
    successful change is the same for two questions whose recomputed
    statistics differ, so it does not carry them. *)
Lemma C5_counterexample_no_question_no_stats :
  ~ (forall d io now u q body v,
       Vote.findOne (Db.votes d) u q = Some v ->
       now - Vote.createdAt v <= voteController.CHANGE_LIMIT ->
       exists data,
         voteController.response (voteController.changeVote d io now u q body)
         = Ok data) /\
  (let o1 := voteController.changeVote Sample.db_voted ∅ 1000 1%nat 1%nat
               (Sample.choose optionB) in
   let o2 := voteController.changeVote Sample.db_voted2 ∅ 1000 1%nat 1%nat
               (Sample.choose optionB) in
   (exists data, voteController.response o1 = Ok data) /\
   voteController.response o1 = voteController.response o2 /\
   (fun question => Question.totalVotes (Question.stats question))
     <$> (Db.questions (voteController.db o1) !! 1%nat) = Some 1 /\
   (fun question => Question.totalVotes (Question.stats question))
     <$> (Db.questions (voteController.db o2) !! 1%nat) = Some 2).
Proof.
  split.
  - intros H.
    destruct (H Sample.db_orphan ∅ 1000 1%nat 1%nat (Sample.choose optionB)
                Sample.vote1 eq_refl ltac:(vm_compute; discriminate)) as [data Hd].
    vm_compute in Hd. discriminate Hd.
  - cbv zeta. split; [eexists; vm_compute; reflexivity|].
    split; [|split]; vm_compute; reflexivity.
Qed.

(** C5 (amended).  [changeVote] fails with "No vote found to change"
    (404) when the pair has no Vote, with "Vote can only be changed
    within 5 minutes" (400) when [now - createdAt] exceeds 5 minutes, and
    with "Question not found" (404) when the question does not exist; a
    failure changes nothing.  Otherwise the user's entries leave both
    option lists of the question, one entry is added to the list of the
    new choice, the statistics are recomputed from the lists, the Vote
    gets the new choice, and the response carries the updated Vote only;
    the recomputed total and percentages go to the question's room in a
    [vote_update] event. *)
Theorem C5_changeVote_outcomes (d : Db.t) (io : gmap SocketId SocketIO.Socket)
    (now : Z) (u : UserId) (q : QuestionId) (body : voteController.VoteBody) :
  let o := voteController.changeVote d io now u q body in
  match Vote.findOne (Db.votes d) u q with
  | None => o = voteController.fail d "No vote found to change" 404
  | Some v =>
    if voteController.CHANGE_LIMIT <? now - Vote.createdAt v
    then o = voteController.fail d "Vote can only be changed within 5 minutes" 400
    else
      match Db.questions d !! q with
      | None => o = voteController.fail d "Question not found" 404
      | Some question =>
        let c := voteController.choice body in
        let others l := List.filter (fun e => negb (Question.voted_by u e)) l in
        let entry := {| Question.userId := u; Question.votedAt := now;
                        Question.decisionTime := 0 |} in
        let v' := Vote.with_choice v c
                    (JS.or_default (voteController.decisionTime body)
                                   (Vote.decisionTime v)) in
        exists question',
          Db.questions (voteController.db o) = <[q := question']> (Db.questions d) /\
          Question.votesA question'
          = others (Question.votesA question)
              ++ (if decide (c = optionA) then [entry] else []) /\
          Question.votesB question'
          = others (Question.votesB question)
              ++ (if decide (c = optionB) then [entry] else []) /\
          Question.stats question' = Question.stats (Question.updateStats question') /\
          Db.votes (voteController.db o) = Vote.save (Db.votes d) v' /\
          voteController.response o = Ok {| voteController.changed_vote := v' |} /\
          voteController.emitted o
          = [SocketIO.io_to io (SocketIO.question_ q)
               (SocketIO.vote_update q c
                  (Question.totalVotes (Question.stats question'))
                  (Question.optionAPercentage (Question.stats question'))
                  (Question.optionBPercentage (Question.stats question'))
                  None (Some "change"%string))]
      end
  end.
Proof.
  cbv zeta. unfold voteController.changeVote.
  destruct (Vote.findOne (Db.votes d) u q) as [v|]; [|reflexivity].
  destruct (voteController.CHANGE_LIMIT <? now - Vote.createdAt v); [reflexivity|].
  destruct (Db.questions d !! q) as [question|]; [|reflexivity].
  unfold Question.addVote. rewrite removeVote_not_voted.
  destruct (voteController.choice body) eqn:Ec; simpl String.eqb; cbv iota.
  all: match goal with
       | |- context [Question.pre_save ?t (Question.updateStats ?x)] =>
           destruct (pre_save_updateStats t x) as (HA & HB & HS & HR);
           exists (Question.pre_save t (Question.updateStats x))
       end.
  all: rewrite HA, HB, HR; simpl; rewrite ?app_nil_r.
  all: repeat split; reflexivity.
Qed.

(** C10.  [changeVote] never writes to a user, a badge or a chat message,
    whatever its outcome: every user's points, experience, level,
    votesCount, streaks and earned badges are the ones before the call.
    Of the questions only the one voted on can change. *)
Theorem C10_changeVote_leaves_users_alone (d : Db.t)
    (io : gmap SocketId SocketIO.Socket) (now : Z) (u : UserId)
    (q : QuestionId) (body : voteController.VoteBody) :
  let o := voteController.changeVote d io now u q body in
  Db.users (voteController.db o) = Db.users d /\
  Db.badges (voteController.db o) = Db.badges d /\
  Db.chatMessages (voteController.db o) = Db.chatMessages d /\
  (forall u', User.stats <$> (Db.users (voteController.db o) !! u')
              = User.stats <$> (Db.users d !! u')) /\
  (forall q', q' <> q ->
     Db.questions (voteController.db o) !! q' = Db.questions d !! q').
Proof.
  cbv zeta. unfold voteController.changeVote.
  destruct (Vote.findOne (Db.votes d) u q) as [v|]; [|auto].
  destruct (voteController.CHANGE_LIMIT <? now - Vote.createdAt v); [auto|].
  destruct (Db.questions d !! q) as [question|]; [|auto].
  destruct (Question.addVote now _ u _ None); [|auto].
  simpl. repeat split; try reflexivity.
  intros q' Hq. apply lookup_insert_ne. congruence.
Qed.

End ChangeVote.

(** ** C6 and C8: the badge pass *)

Section Badges.

Lemma includes_In (l : list BadgeId) (b : BadgeId) :
  Badge.includes l b = true <-> In b l.
Proof.
  unfold Badge.includes. rewrite existsb_exists. split.
  - intros (x & Hx & E). apply Nat.eqb_eq in E. subst. exact Hx.
  - intros H. exists b. split; [exact H|]. apply Nat.eqb_refl.
Qed.

(** What an award writes: all of it, or nothing. *)
Lemma awardToUser_spec (d : Db.t) (now : Z) (u : UserId) (b : BadgeId) :
  let d' := fst (Badge.awardToUser d now u b) in
  (forall j, reward d' j = reward d j) /\
  (forall j, BadgeDoc.requirements <$> (Db.badges d' !! j)
             = BadgeDoc.requirements <$> (Db.badges d !! j)) /\
  if snd (Badge.awardToUser d now u b)
  then ~ In b (held d u) /\
       held d' u = held d u ++ [b] /\
       points_of d' u = points_of d u + reward d b
  else d' = d.
Proof.
  unfold Badge.awardToUser, held, points_of, reward.
  destruct (Db.badges d !! b) as [badge|] eqn:Eb;
    [|simpl; repeat split; reflexivity].
  destruct (Db.users d !! u) as [user|] eqn:Eu;
    [|simpl; repeat split; reflexivity].
  destruct (Badge.includes (User.badges (User.stats user)) b) eqn:Ei;
    [simpl; repeat split; reflexivity|].
  simpl. rewrite lookup_insert_eq. simpl.
  split; [|split; [|split; [|split]]]; try reflexivity.
  - intros j. destruct (decide (b = j)) as [<-|Hne].
    + rewrite lookup_insert_eq, Eb. reflexivity.
    + rewrite lookup_insert_ne by exact Hne. reflexivity.
  - intros j. destruct (decide (b = j)) as [<-|Hne].
    + rewrite lookup_insert_eq, Eb. reflexivity.
    + rewrite lookup_insert_ne by exact Hne. reflexivity.
  - intros Hin. apply includes_In in Hin. congruence.
Qed.

Lemma sum_rewards_app (d : Db.t) (l1 l2 : list BadgeId) :
  sum_rewards d (l1 ++ l2) = sum_rewards d l1 + sum_rewards d l2.
Proof. induction l1 as [|b l1 IH]; simpl; [reflexivity|]. rewrite IH. lia. Qed.

Lemma sum_rewards_ext (d d' : Db.t) (l : list BadgeId) :
  (forall j, reward d' j = reward d j) -> sum_rewards d' l = sum_rewards d l.
Proof. intros H. induction l as [|b l IH]; simpl; [reflexivity|]. rewrite IH, H. reflexivity. Qed.

(** What a pass writes: the badges it reports are appended to the
    user's, and their rewards are added to the user's points. *)
Lemma evaluate_spec (bs : list (BadgeId * BadgeDoc.t)) (d : Db.t) (tz now : Z) (u : UserId) :
  let d' := fst (Badge.evaluate d tz now u bs) in
  let earned := map fst (snd (Badge.evaluate d tz now u bs)) in
  (forall j, reward d' j = reward d j) /\
  (forall j, BadgeDoc.requirements <$> (Db.badges d' !! j)
             = BadgeDoc.requirements <$> (Db.badges d !! j)) /\
  held d' u = held d u ++ earned /\
  points_of d' u = points_of d u + sum_rewards d earned /\
  (List.NoDup (held d u) -> List.NoDup (held d' u)).
Proof.
  revert d. induction bs as [|[i badge] bs IH]; intros d; simpl.
  { rewrite app_nil_r. repeat split; auto. lia. }
  destruct (Badge.checkUserQualification d tz now u i); [|apply IH].
  pose proof (awardToUser_spec d now u i) as Ha. cbv zeta in Ha.
  destruct (Badge.awardToUser d now u i) as [d1 awarded]. simpl in Ha.
  specialize (IH d1). cbv zeta in IH.
  destruct (Badge.evaluate d1 tz now u bs) as [d2 earned]. simpl in IH |- *.
  destruct Ha as (Hr1 & Hq1 & Ha). destruct IH as (Hr2 & Hq2 & Hh & Hp & Hn).
  destruct awarded.
  - destruct Ha as (Hnew & Hh1 & Hp1). simpl.
    split; [intros j; rewrite Hr2; apply Hr1|].
    split; [intros j; rewrite Hq2; apply Hq1|].
    split; [rewrite Hh, Hh1, <- app_assoc; reflexivity|].
    split; [rewrite Hp, Hp1, (sum_rewards_ext d d1 _ Hr1); lia|].
    intros Hnd. apply Hn. rewrite Hh1.
    apply List.NoDup_app; [exact Hnd| |].
    + constructor; [intros []|constructor].
    + intros x Hx [<-|[]]. contradiction.
  - subst d1. repeat split; auto.
Qed.

(** An award never changes the type of a requirement. *)
Lemma unrecognized_preserved (d d' : Db.t) (i : BadgeId) :
  (forall j, BadgeDoc.requirements <$> (Db.badges d' !! j)
             = BadgeDoc.requirements <$> (Db.badges d !! j)) ->
  unrecognized d i -> unrecognized d' i.
Proof.
  intros H (badge & Hb & Hr). specialize (H i). rewrite Hb in H.
  destruct (Db.badges d' !! i) as [badge'|] eqn:E; [|discriminate H].
  simpl in H. injection H as H. exists badge'. split; [exact E|].
  rewrite H. exact Hr.
Qed.

Lemma unrecognized_currentValue (d : Db.t) (tz now : Z) (u : UserId)
    (user : User.t) (r : BadgeDoc.Requirements) :
  Badge.recognized (BadgeDoc.type r) = false ->
  Badge.currentValue d tz now u user r = None.
Proof.
  unfold Badge.recognized, Badge.currentValue. simpl.
  intros H. repeat (apply orb_false_iff in H as [?E H]).
  rewrite E, E0, E1, E2, E3, E4. reflexivity.
Qed.

Lemma unrecognized_not_qualified (d : Db.t) (tz now : Z) (u : UserId) (i : BadgeId) :
  unrecognized d i -> Badge.checkUserQualification d tz now u i = false.
Proof.
  intros (badge & Hb & Hr). unfold Badge.checkUserQualification. rewrite Hb.
  destruct (negb (BadgeDoc.isActive badge)); [reflexivity|].
  destruct (Db.users d !! u) as [user|]; [|reflexivity].
  rewrite unrecognized_currentValue by exact Hr.
  repeat match goal with |- (if ?c then _ else _) = _ => destruct c; [reflexivity|] end.
  reflexivity.
Qed.

Lemma evaluate_skips_unrecognized (pre post : list (BadgeId * BadgeDoc.t))
    (d : Db.t) (tz now : Z) (u : UserId) (i : BadgeId) (doc : BadgeDoc.t) :
  unrecognized d i ->
  Badge.evaluate d tz now u (pre ++ (i, doc) :: post)
  = Badge.evaluate d tz now u (pre ++ post).
Proof.
  revert d. induction pre as [|[j b] pre IH]; intros d Hu; simpl.
  { rewrite unrecognized_not_qualified by exact Hu. reflexivity. }
  destruct (Badge.checkUserQualification d tz now u j); [|apply IH, Hu].
  pose proof (awardToUser_spec d now u j) as Ha. cbv zeta in Ha.
  destruct (Badge.awardToUser d now u j) as [d1 awarded]. simpl in Ha.
  rewrite IH; [reflexivity|].
  eapply unrecognized_preserved; [|exact Hu]. apply Ha.
Qed.

Lemma evaluate_never_reports_unrecognized (bs : list (BadgeId * BadgeDoc.t))
    (d : Db.t) (tz now : Z) (u : UserId) (i : BadgeId) :
  unrecognized d i ->
  ~ In i (map fst (snd (Badge.evaluate d tz now u bs))).
Proof.
  revert d. induction bs as [|[j b] bs IH]; intros d Hu; simpl; [tauto|].
  destruct (Badge.checkUserQualification d tz now u j) eqn:Eq; [|apply IH, Hu].
  assert (j <> i) as Hne.
  { intros ->. rewrite unrecognized_not_qualified in Eq by exact Hu. discriminate Eq. }
  pose proof (awardToUser_spec d now u j) as Ha. cbv zeta in Ha.
  destruct (Badge.awardToUser d now u j) as [d1 awarded]. simpl in Ha.
  assert (unrecognized d1 i) as Hu1.
  { eapply unrecognized_preserved; [|exact Hu]. apply Ha. }
  specialize (IH d1 Hu1).
  destruct (Badge.evaluate d1 tz now u bs) as [d2 earned]. simpl in *.
  destruct awarded; simpl; [|exact IH]. intros [Hji|Hin]; [auto|auto].
Qed.

(** An award writes the user's badges and points only. *)
Lemma awardToUser_user (d : Db.t) (now : Z) (u : UserId) (b : BadgeId) (user : User.t) :
  Db.users d !! u = Some user ->
  exists user',
    Db.users (fst (Badge.awardToUser d now u b)) !! u = Some user' /\
    progress_kept (User.stats user) (User.stats user').
Proof.
  intros Hu. unfold Badge.awardToUser. rewrite Hu.
  destruct (Db.badges d !! b) as [badge|];
    [|exists user; split; [exact Hu|repeat split]].
  destruct (Badge.includes _ b); [exists user; split; [exact Hu|repeat split]|].
  simpl. rewrite lookup_insert_eq. eexists. split; [reflexivity|]. repeat split.
Qed.

Lemma evaluate_user (bs : list (BadgeId * BadgeDoc.t)) (d : Db.t) (tz now : Z)
    (u : UserId) (user : User.t) :
  Db.users d !! u = Some user ->
  exists user',
    Db.users (fst (Badge.evaluate d tz now u bs)) !! u = Some user' /\
    progress_kept (User.stats user) (User.stats user').
Proof.
  revert d user. induction bs as [|[i badge] bs IH]; intros d user Hu; simpl.
  { exists user. split; [exact Hu|repeat split]. }
  destruct (Badge.checkUserQualification d tz now u i); [|apply IH, Hu].
  destruct (awardToUser_user d now u i user Hu) as (user1 & Hu1 & K1).
  destruct (Badge.awardToUser d now u i) as [d1 awarded]. simpl in Hu1.
  destruct (IH d1 user1 Hu1) as (user2 & Hu2 & K2).
  destruct (Badge.evaluate d1 tz now u bs) as [d2 earned]. simpl in *.
  exists user2. split; [exact Hu2|].
  unfold progress_kept in *. intuition congruence.
Qed.

Lemma NoDup_app_disjoint {A : Type} (l1 l2 : list A) (a : A) :
  List.NoDup (l1 ++ l2) -> In a l1 -> ~ In a l2.
Proof.
  induction l1 as [|x l1 IH]; simpl; [tauto|].
  intros H [->|Hin] Ha.
  - apply List.NoDup_cons_iff in H as [H _]. apply H, in_or_app. right. exact Ha.
  - apply List.NoDup_cons_iff in H as [_ H]. exact (IH H Hin Ha).
Qed.

(** C6.  An award writes the badge and its full reward together, to a
    user who does not hold the badge, or writes nothing.  Two passes in
    succession append to the user's badges the badges they report and
    nothing else; the resulting list has no duplicate when the list
    before had none; no badge held after the first pass is reported by
    the second; and the user's points grow by the reward of each
    reported badge, once. *)
Theorem C6_badge_awarded_once (d : Db.t) (tz now now' : Z) (u : UserId)
    (bs bs' : list (BadgeId * BadgeDoc.t)) :
  List.NoDup (held d u) ->
  let r1 := Badge.evaluate d tz now u bs in
  let r2 := Badge.evaluate (fst r1) tz now' u bs' in
  let earned1 := map fst (snd r1) in
  let earned2 := map fst (snd r2) in
  held (fst r2) u = held d u ++ earned1 ++ earned2 /\
  List.NoDup (held (fst r2) u) /\
  (forall b, In b (held (fst r1) u) -> ~ In b earned2) /\
  points_of (fst r2) u = points_of d u + sum_rewards d (earned1 ++ earned2) /\
  (forall d0 t b,
     let a := Badge.awardToUser d0 t u b in
     if snd a
     then ~ In b (held d0 u) /\
          held (fst a) u = held d0 u ++ [b] /\
          points_of (fst a) u = points_of d0 u + reward d0 b
     else fst a = d0).
Proof.
  intros Hnd. cbv zeta.
  destruct (evaluate_spec bs d tz now u) as (Hr1 & _ & Hh1 & Hp1 & Hn1).
  destruct (evaluate_spec bs' (fst (Badge.evaluate d tz now u bs)) tz now' u)
    as (Hr2 & _ & Hh2 & Hp2 & Hn2).
  assert (held (fst (Badge.evaluate (fst (Badge.evaluate d tz now u bs)) tz now' u bs')) u
          = held d u ++ map fst (snd (Badge.evaluate d tz now u bs))
              ++ map fst (snd (Badge.evaluate (fst (Badge.evaluate d tz now u bs))
                                 tz now' u bs'))) as Hh.
  { rewrite Hh2, Hh1, <- app_assoc. reflexivity. }
  split; [exact Hh|]. split; [auto|]. split; [|split].
  - intros b Hb. eapply NoDup_app_disjoint; [|exact Hb].
    rewrite <- Hh2. auto.
  - rewrite Hp2, Hp1, sum_rewards_app, (sum_rewards_ext d _ _ Hr1). lia.
  - intros d0 t b. apply awardToUser_spec.
Qed.

Lemma C6_badge_awarded_once_witness :
  List.NoDup (held Sample.db_badges 1%nat) /\
  List.NoDup
    (held (fst (Badge.evaluate
                  (fst (Badge.evaluate Sample.db_badges 0 1000 1%nat
                          (Badge.find_active Sample.db_badges)))
                  0 1000 1%nat (Badge.find_active Sample.db_badges))) 1%nat).
Proof.
  assert (List.NoDup (held Sample.db_badges 1%nat)) as H by constructor.
  split; [exact H|].
  exact (proj1 (proj2 (C6_badge_awarded_once Sample.db_badges 0 1000 1000 1%nat
                         (Badge.find_active Sample.db_badges)
                         (Badge.find_active Sample.db_badges) H))).
Defined.

(** C8.  A badge whose requirement type is none of the six the [switch]
    handles never qualifies.  The pass goes on as if the badge were not
    in the list: the database and the badges reported are those of the
    pass over the other badges, the badge is not among them, and the
    user holds it afterwards only if the user held it before. *)
Theorem C8_unrecognized_requirement_is_skipped (d : Db.t) (tz now : Z)
    (u : UserId) (i : BadgeId) (stored doc : BadgeDoc.t)
    (pre post : list (BadgeId * BadgeDoc.t)) :
  Db.badges d !! i = Some stored ->
  Badge.recognized (BadgeDoc.type (BadgeDoc.requirements stored)) = false ->
  let r := Badge.evaluate d tz now u (pre ++ (i, doc) :: post) in
  Badge.checkUserQualification d tz now u i = false /\
  r = Badge.evaluate d tz now u (pre ++ post) /\
  ~ In i (map fst (snd r)) /\
  (In i (held (fst r) u) -> In i (held d u)).
Proof.
  intros Hb Hr. cbv zeta.
  assert (unrecognized d i) as Hu by (exists stored; auto).
  split; [apply unrecognized_not_qualified, Hu|].
  split; [apply evaluate_skips_unrecognized, Hu|].
  pose proof (evaluate_never_reports_unrecognized
                (pre ++ (i, doc) :: post) d tz now u i Hu) as Hnot.
  split; [exact Hnot|].
  destruct (evaluate_spec (pre ++ (i, doc) :: post) d tz now u) as (_ & _ & Hh & _).
  rewrite Hh, in_app_iff. tauto.
Qed.

Lemma C8_unrecognized_requirement_is_skipped_witness :
  Db.badges Sample.db_badges !! 2%nat = Some Sample.event /\
  Badge.recognized (BadgeDoc.type (BadgeDoc.requirements Sample.event)) = false /\
  Badge.evaluate Sample.db_badges 0 1000 1%nat
    ([(1%nat, Sample.first_vote)] ++ (2%nat, Sample.event) :: [(3%nat, Sample.collector)])
  = Badge.evaluate Sample.db_badges 0 1000 1%nat
      ([(1%nat, Sample.first_vote)] ++ [(3%nat, Sample.collector)]).
Proof.
  split; [reflexivity|]. split; [reflexivity|].
  exact (proj1 (proj2 (C8_unrecognized_requirement_is_skipped Sample.db_badges
                         0 1000 1%nat 2%nat Sample.event Sample.event
                         [(1%nat, Sample.first_vote)] [(3%nat, Sample.collector)]
                         eq_refl eq_refl))).
Defined.

End Badges.

(** ** C7 and C9: what the rooms receive *)

Section Rooms.

Import SocketIO.

Lemma members_spec (sockets : gmap SocketId Socket) (r : Room) (y : SocketId) :
  y ∈ members sockets r <-> exists s, sockets !! y = Some s /\ r ∈ rooms s.
Proof.
  unfold members. rewrite elem_of_dom. unfold is_Some. split.
  - intros [s Hs]. apply map_lookup_filter_Some in Hs as [Hs Hin].
    exists s. split; [exact Hs|]. simpl in Hin. unfold in_room in Hin.
    apply bool_decide_eq_true in Hin. exact Hin.
  - intros (s & Hs & Hin). exists s. apply map_lookup_filter_Some.
    split; [exact Hs|]. simpl. unfold in_room. apply bool_decide_eq_true. exact Hin.
Qed.

(** C7 (the code as it is).  The handler of [disconnect] emits
    [user_offline] and nothing else, whatever room the socket was in:
    the entry is deleted before the room is read from it, so the
    [user_left_room] notice of the claim is never sent. *)
Theorem C7_disconnect_emits_only_user_offline (st : socketHandler.State)
    (now : Z) (sid : SocketId) :
  snd (socketHandler.disconnect st now sid)
  = match socketHandler.sockets st !! sid with
    | Some sock =>
        [socket_broadcast (delete sid (socketHandler.sockets st)) sid
           (user_offline (userId sock) (username sock) now)]
    | None => []
    end.
Proof.
  unfold socketHandler.disconnect.
  destruct (socketHandler.sockets st !! sid) as [sock|]; [|reflexivity].
  unfold socketHandler.on_disconnect. cbv zeta. simpl.
  rewrite lookup_delete_eq. reflexivity.
Qed.

(** Ann leaves while she and Bob are in the room of question 1: Bob's
    socket gets [user_offline], and no [user_left_room]. *)
Lemma disconnect_in_room_example :
  (socketHandler.currentRoom
     <$> (socketHandler.activeUsers (Server.io Sample.in_room) !! 1%nat))
  = Some (Some (question_ 1%nat)) /\
  snd (socketHandler.disconnect (Server.io Sample.in_room) 5000 10%nat)
  = [{| recipients := {[ 20%nat ]}; event := user_offline 1%nat "ann" 5000 |}].
Proof. split; vm_compute; reflexivity. Qed.




End Rooms.

(** * Further properties of the modelled code *)

(** ** Question.js: the option lists *)

Section QuestionLists.

Lemma hasUserVoted_None (q : Question.t) (u : UserId) :
  Question.hasUserVoted q u = None <-> ~ In u (voters q).
Proof.
  unfold Question.hasUserVoted, voters. rewrite map_app, in_app_iff.
  assert (forall l, existsb (Question.voted_by u) l = true
                    <-> In u (map Question.userId l)) as H.
  { intros l. rewrite existsb_exists, in_map_iff. unfold Question.voted_by.
    split; intros (x & H1 & H2).
    - apply bool_decide_eq_true in H2. eauto.
    - exists x. split; [exact H2|]. apply bool_decide_eq_true. exact H1. }
  destruct (existsb (Question.voted_by u) (Question.votesA q)) eqn:EA.
  { apply H in EA. split; [discriminate|tauto]. }
  destruct (existsb (Question.voted_by u) (Question.votesB q)) eqn:EB.
  { apply H in EB. split; [discriminate|tauto]. }
  split; [|reflexivity]. intros _ [HA|HB].
  - apply H in HA. congruence.
  - apply H in HB. congruence.
Qed.

Lemma filter_others_id (u : UserId) (l : list Question.VoteEntry) :
  ~ In u (map Question.userId l) ->
  List.filter (fun vote => negb (Question.voted_by u vote)) l = l.
Proof.
  induction l as [|e l IH]; simpl; intros H; [reflexivity|].
  unfold Question.voted_by at 1.
  destruct (bool_decide (Question.userId e = u)) eqn:E.
  - apply bool_decide_eq_true in E. tauto.
  - simpl. rewrite IH; [reflexivity|tauto].
Qed.

Lemma filter_others_snoc (u : UserId) (l : list Question.VoteEntry) (e : Question.VoteEntry) :
  Question.userId e = u ->
  List.filter (fun vote => negb (Question.voted_by u vote)) (l ++ [e])
  = List.filter (fun vote => negb (Question.voted_by u vote)) l.
Proof.
  intros He. rewrite List.filter_app. simpl. unfold Question.voted_by at 2.
  rewrite bool_decide_eq_true_2 by exact He. simpl. apply app_nil_r.
Qed.

Lemma addVote_rejects_voter now (q : Question.t) (u : UserId) (o o' : string) dt :
  Question.hasUserVoted q u = Some o ->
  Question.addVote now q u o' dt = Err "User has already voted on this question"%string.
Proof. intros H. unfold Question.addVote. rewrite H. reflexivity. Qed.

(** X1.  A user gets one entry: once [addVote] has succeeded for a user,
    every further [addVote] for that user throws "User has already voted
    on this question", whatever the option; and when no user has two
    entries in the option lists before, none has after. *)
Theorem X1_addVote_once (now : Z) (q q' : Question.t) (u : UserId)
    (o : string) (dt : option Z) :
  Question.addVote now q u o dt = Ok q' ->
  Question.hasUserVoted q u = None /\
  Question.hasUserVoted q' u = Some o /\
  (forall now' o' dt',
     Question.addVote now' q' u o' dt'
     = Err "User has already voted on this question"%string) /\
  (List.NoDup (voters q) -> List.NoDup (voters q')).
Proof.
  unfold Question.addVote.
  destruct (Question.hasUserVoted q u) eqn:Hu; [discriminate|].
  pose proof (proj1 (hasUserVoted_None q u) Hu) as Hnot.
  unfold voters in *. rewrite map_app, in_app_iff in Hnot.
  destruct (String.eqb o "optionA") eqn:EA.
  { apply String.eqb_eq in EA. subst o. intros [= <-].
    assert (Question.hasUserVoted
              (Question.updateStats
                 (Question.with_votes q
                    (Question.votesA q ++
                     [{| Question.userId := u; Question.votedAt := now;
                         Question.decisionTime :=
                           match dt with Some d => d | None => 0 end |}])
                    (Question.votesB q))) u = Some "optionA"%string) as Hv.
    { unfold Question.hasUserVoted. simpl. rewrite existsb_app. simpl.
      unfold Question.voted_by at 2. simpl.
      rewrite bool_decide_eq_true_2 by reflexivity.
      rewrite orb_true_r. reflexivity. }
    split; [reflexivity|]. split; [exact Hv|].
    split; [intros; eapply addVote_rejects_voter; exact Hv|].
    simpl. rewrite !map_app. simpl. intros Hnd.
    apply List.NoDup_app_remove_l in Hnd as HB.
    apply List.NoDup_app_remove_r in Hnd as HA.
    apply List.NoDup_app; [|exact HB|].
    - apply List.NoDup_app; [exact HA|constructor; [intros []|constructor]|].
      intros a Ha [<-|[]]. tauto.
    - intros a Ha HaB. apply in_app_iff in Ha as [Ha|[<-|[]]].
      + exact (NoDup_app_disjoint _ _ a Hnd Ha HaB).
      + tauto. }
  destruct (String.eqb o "optionB") eqn:EB; [|discriminate].
  apply String.eqb_eq in EB. subst o. intros [= <-].
  assert (Question.hasUserVoted
            (Question.updateStats
               (Question.with_votes q (Question.votesA q)
                  (Question.votesB q ++
                   [{| Question.userId := u; Question.votedAt := now;
                       Question.decisionTime :=
                         match dt with Some d => d | None => 0 end |}]))) u
          = Some "optionB"%string) as Hv.
  { unfold Question.hasUserVoted. simpl.
    destruct (existsb (Question.voted_by u) (Question.votesA q)) eqn:E.
    { exfalso. apply (proj1 (hasUserVoted_None q u) Hu).
      unfold voters. rewrite map_app, in_app_iff. left.
      apply existsb_exists in E as (x & Hx & Hux).
      apply bool_decide_eq_true in Hux. subst u. apply in_map. exact Hx. }
    rewrite existsb_app. simpl. unfold Question.voted_by at 2. simpl.
    rewrite bool_decide_eq_true_2 by reflexivity.
    rewrite orb_true_r. reflexivity. }
  split; [reflexivity|]. split; [exact Hv|].
    split; [intros; eapply addVote_rejects_voter; exact Hv|].
  simpl. rewrite !map_app. simpl. intros Hnd.
  apply List.NoDup_app_remove_l in Hnd as HB.
  apply List.NoDup_app_remove_r in Hnd as HA.
  apply List.NoDup_app; [exact HA| |].
  - apply List.NoDup_app; [exact HB|constructor; [intros []|constructor]|].
    intros a Ha [<-|[]]. tauto.
  - intros a Ha HaB. apply in_app_iff in HaB as [HaB|[<-|[]]].
    + exact (NoDup_app_disjoint _ _ a Hnd Ha HaB).
    + tauto.
Qed.

Lemma X1_addVote_once_witness :
  Question.addVote 5 Sample.question0 1%nat "optionA" None
  = Ok (Question.updateStats
          (Question.with_votes Sample.question0
             [{| Question.userId := 1%nat; Question.votedAt := 5;
                 Question.decisionTime := 0 |}] [])) /\
  Question.addVote 9
    (Question.updateStats
       (Question.with_votes Sample.question0
          [{| Question.userId := 1%nat; Question.votedAt := 5;
              Question.decisionTime := 0 |}] []))
    1%nat "optionB" None
  = Err "User has already voted on this question"%string.
Proof.
  split; [reflexivity|].
  exact (proj1 (proj2 (proj2 (X1_addVote_once 5 Sample.question0 _ 1%nat
                                "optionA" None eq_refl))) 9 "optionB"%string None).
Defined.

(** X2.  [removeVote] undoes [addVote]: removing the user whose vote was
    just added gives the question back with the statistics recomputed,
    that is [updateStats] of the question before. *)
Theorem X2_removeVote_undoes_addVote (now : Z) (q q' : Question.t)
    (u : UserId) (o : string) (dt : option Z) :
  Question.addVote now q u o dt = Ok q' ->
  Question.removeVote q' u = Question.updateStats q.
Proof.
  unfold Question.addVote.
  destruct (Question.hasUserVoted q u) eqn:Hu; [discriminate|].
  apply hasUserVoted_None in Hu. unfold voters in Hu.
  rewrite map_app, in_app_iff in Hu.
  assert (HA := filter_others_id u (Question.votesA q) ltac:(tauto)).
  assert (HB := filter_others_id u (Question.votesB q) ltac:(tauto)).
  destruct (String.eqb o "optionA").
  - intros [= <-]. unfold Question.removeVote. simpl.
    rewrite filter_others_snoc by reflexivity. rewrite HA, HB.
    unfold Question.updateStats. simpl. rewrite length_app. simpl.
    assert ((0 <? Z.of_nat (length (Question.votesA q) + 1) +
                    Z.of_nat (length (Question.votesB q))) = true) as ->
      by (apply Z.ltb_lt; lia).
    destruct (0 <? Z.of_nat (length (Question.votesA q)) +
                   Z.of_nat (length (Question.votesB q))) eqn:E1;
      simpl; destruct (0 <? Question.views (Question.stats q)); reflexivity.
  - destruct (String.eqb o "optionB"); [|discriminate].
    intros [= <-]. unfold Question.removeVote. simpl.
    rewrite filter_others_snoc by reflexivity. rewrite HA, HB.
    unfold Question.updateStats. simpl. rewrite length_app. simpl.
    assert ((0 <? Z.of_nat (length (Question.votesA q)) +
                    Z.of_nat (length (Question.votesB q) + 1)) = true) as ->
      by (apply Z.ltb_lt; lia).
    destruct (0 <? Z.of_nat (length (Question.votesA q)) +
                   Z.of_nat (length (Question.votesB q))) eqn:E1;
      simpl; destruct (0 <? Question.views (Question.stats q)); reflexivity.
Qed.

Lemma X2_removeVote_undoes_addVote_witness :
  Question.removeVote
    (Question.updateStats
       (Question.with_votes Sample.question1 (Question.votesA Sample.question1)
          (Question.votesB Sample.question1
             ++ [{| Question.userId := 2%nat; Question.votedAt := 5;
                    Question.decisionTime := 0 |}])))
    2%nat
  = Question.updateStats Sample.question1.
Proof.
  exact (X2_removeVote_undoes_addVote 5 Sample.question1 _ 2%nat "optionB" None eq_refl).
Defined.

(** X3.  After [updateStats], and so after every save, the stored
    [totalVotes] and percentages are the values of the virtuals
    [totalVotes] and [votePercentages]. *)
Theorem X3_stored_statistics_match_virtuals (now : Z) (q : Question.t) :
  let stored q' :=
    (Question.totalVotes (Question.stats q'),
     (Question.optionAPercentage (Question.stats q'),
      Question.optionBPercentage (Question.stats q'))) in
  stored (Question.updateStats q)
  = (Question.virtual_totalVotes (Question.updateStats q),
     Question.votePercentages (Question.updateStats q)) /\
  stored (Question.pre_save now q)
  = (Question.virtual_totalVotes (Question.pre_save now q),
     Question.votePercentages (Question.pre_save now q)).
Proof.
  assert (forall q0,
            (Question.totalVotes (Question.stats (Question.updateStats q0)),
             (Question.optionAPercentage (Question.stats (Question.updateStats q0)),
              Question.optionBPercentage (Question.stats (Question.updateStats q0))))
            = (Question.virtual_totalVotes q0, Question.votePercentages q0)) as H.
  { intros q0. destruct (updateStats_tally q0) as (H1 & H2 & H3).
    rewrite H1, H2, H3. unfold Question.votePercentages, Question.virtual_totalVotes.
    set (t := Z.of_nat (length (Question.votesA q0))
              + Z.of_nat (length (Question.votesB q0))).
    assert (0 <= t) by lia.
    destruct (0 <? t) eqn:E1; destruct (t =? 0) eqn:E2; try reflexivity; lia. }
  cbv zeta. split; [exact (H q)|].
  destruct (pre_save_updateStats now q) as (HA & HB & HS & _).
  unfold Question.pre_save in *.
  rewrite updateStats_idempotent in HA, HB, HS.
  unfold Question.virtual_totalVotes, Question.votePercentages,
    Question.virtual_totalVotes.
  rewrite HA, HB, HS. exact (H q).
Qed.

End QuestionLists.

(** ** User.js: points, level and streak *)

Section UserProgress.


Lemma vote_step_fields (u : User.t) (tz now : Z) :
  let u' := Progress.step u (Progress.vote tz now) in
  User.votesCount (User.stats u') = User.votesCount (User.stats u) + 1 /\
  User.points (User.stats u') = User.points (User.stats u) + 10 /\
  User.experience (User.stats u') = User.experience (User.stats u) + 10 /\
  User.badges (User.stats u') = User.badges (User.stats u).
Proof.
  simpl.
  destruct (updateStreak_level tz now (fst (User.addPoints (User.incVotesCount u) 10)))
    as (_ & He & Hp & Hb & Hv).
  rewrite He, Hp, Hb, Hv.
  unfold User.addPoints. cbv zeta.
  destruct (_ <? _); simpl; auto.
Qed.

(** X5.  A new user who has voted [n] times has [votesCount = n],
    [10 * n] points and experience, and level [floor (sqrt (n / 10)) + 1],
    on whatever days the votes were cast: level 2 comes with the 10th
    vote, level 3 with the 40th. *)
Theorem X5_new_user_after_n_votes (name : string) (av : option string)
    (created : Z) (times : list (Z * Z)) :
  let votes := map (fun t => Progress.vote (fst t) (snd t)) times in
  let s := User.stats (Progress.run (User.new name av created) votes) in
  let n := Z.of_nat (length times) in
  User.votesCount s = n /\
  User.points s = 10 * n /\
  User.experience s = 10 * n /\
  User.level s = Z.sqrt (n / 10) + 1 /\
  User.badges s = [].
Proof.
  cbv zeta.
  assert (forall u,
            let s := User.stats (Progress.run u
                       (map (fun t => Progress.vote (fst t) (snd t)) times)) in
            User.votesCount s = User.votesCount (User.stats u) + Z.of_nat (length times) /\
            User.points s = User.points (User.stats u) + 10 * Z.of_nat (length times) /\
            User.experience s
            = User.experience (User.stats u) + 10 * Z.of_nat (length times) /\
            User.badges s = User.badges (User.stats u)) as H.
  { induction times as [|[tz now] times IH]; intros u; simpl.
    - repeat split; lia.
    - destruct (IH (Progress.step u (Progress.vote tz now))) as (H1 & H2 & H3 & H4).
      destruct (vote_step_fields u tz now) as (V1 & V2 & V3 & V4).
      cbv zeta in *. simpl in *. rewrite H1, H2, H3, H4, V1, V2, V3, V4.
      repeat split; lia. }
  destruct (H (User.new name av created)) as (H1 & H2 & H3 & H4).
  assert (level_consistent
            (Progress.run (User.new name av created)
               (map (fun t => Progress.vote (fst t) (snd t)) times))) as [Hl _].
  { apply run_consistent. split; [reflexivity|]. simpl. lia. }
  rewrite H1, H2, H3, H4, Hl, H3. simpl.
  repeat split; try lia.
  unfold User.level_of_experience. do 2 f_equal.
  replace (0 + 10 * Z.of_nat (length times)) with (Z.of_nat (length times) * 10) by lia.
  rewrite <- (Z.div_div _ 10 10) by lia. rewrite Z.div_mul by lia. reflexivity.
Qed.


(** X6.  A second [updateStreak] on the same local calendar day changes
    nothing and returns the streak again: a day counts once. *)
Theorem X6_updateStreak_once_a_day (tz now now' : Z) (u : User.t) :
  Calendar.local_day tz now' = Calendar.local_day tz now ->
  User.updateStreak tz now' (fst (User.updateStreak tz now u))
  = User.updateStreak tz now u.
Proof.
  intros Hday.
  assert (forall t t', Calendar.local_day tz t' = Calendar.local_day tz t ->
                       User.daysDiff tz t' t = 0) as Hsame.
  { intros t t' H. rewrite daysDiff_local_days. lia. }
  unfold User.updateStreak at 2 3. cbv zeta.
  destruct (User.daysDiff tz now (User.lastActivity (User.stats u)) =? 0) eqn:E0.
  { apply Z.eqb_eq in E0. simpl. unfold User.updateStreak. cbv zeta.
    rewrite daysDiff_local_days in E0.
    assert (User.daysDiff tz now' (User.lastActivity (User.stats u)) = 0) as ->
      by (rewrite daysDiff_local_days; lia).
    reflexivity. }
  destruct (User.daysDiff tz now (User.lastActivity (User.stats u)) =? 1);
    simpl; unfold User.updateStreak; cbv zeta; simpl;
    rewrite (Hsame now now' Hday); reflexivity.
Qed.

Lemma X6_updateStreak_once_a_day_witness :
  Calendar.local_day 0 (MS_PER_DAY + 9) = Calendar.local_day 0 (MS_PER_DAY + 5) /\
  User.updateStreak 0 (MS_PER_DAY + 9)
    (fst (User.updateStreak 0 (MS_PER_DAY + 5) Sample.ann))
  = User.updateStreak 0 (MS_PER_DAY + 5) Sample.ann.
Proof.
  split; [reflexivity|].
  exact (X6_updateStreak_once_a_day 0 (MS_PER_DAY + 5) (MS_PER_DAY + 9)
           Sample.ann eq_refl).
Defined.




(** X8.  [longestStreak] never goes down, and once it is at least 1 and
    at least [currentStreak], it stays so: the reset to 1 is the one
    write that can leave [currentStreak] above a [longestStreak] of 0 or
    less. *)
Theorem X8_longestStreak_bounds (tz now : Z) (u : User.t) :
  let s := User.stats u in
  let s' := User.stats (fst (User.updateStreak tz now u)) in
  User.longestStreak s <= User.longestStreak s' /\
  (1 <= User.longestStreak s ->
   User.currentStreak s <= User.longestStreak s ->
   User.currentStreak s' <= User.longestStreak s').
Proof.
  cbv zeta. unfold User.updateStreak. cbv zeta.
  destruct (_ =? 0); [simpl; lia|].
  destruct (_ =? 1); simpl; [|lia].
  destruct (User.longestStreak (User.stats u) <? User.currentStreak (User.stats u) + 1) eqn:E;
    [apply Z.ltb_lt in E|apply Z.ltb_ge in E]; lia.
Qed.

Lemma X8_longestStreak_bounds_witness :
  let u := fst (User.updateStreak 0 (MS_PER_DAY + 5) Sample.ann) in
  1 <= User.longestStreak (User.stats u) /\
  User.currentStreak (User.stats (fst (User.updateStreak 0 (5 * MS_PER_DAY) u)))
  <= User.longestStreak (User.stats (fst (User.updateStreak 0 (5 * MS_PER_DAY) u))).
Proof.
  cbv zeta. split; [vm_compute; discriminate|].
  apply (proj2 (X8_longestStreak_bounds 0 (5 * MS_PER_DAY)
                  (fst (User.updateStreak 0 (MS_PER_DAY + 5) Sample.ann))));
    vm_compute; discriminate.
Defined.

End UserProgress.

(** ** Vote.js and voteController.js: the ledger *)

Section Ledger.

Lemma fresh_id_above (coll : list Vote.t) (w : Vote.t) :
  In w coll -> (Vote._id w < Vote.fresh_id coll)%nat.
Proof.
  unfold Vote.fresh_id. induction coll as [|v coll IH]; simpl; [tauto|].
  intros [->|H]; [lia|]. specialize (IH H). lia.
Qed.

Lemma fresh_id_unused (coll : list Vote.t) :
  existsb (fun w => bool_decide (Vote._id w = Vote.fresh_id coll)) coll = false.
Proof.
  apply not_true_iff_false. intros H.
  apply existsb_exists in H as (w & Hw & E). apply bool_decide_eq_true in E.
  pose proof (fresh_id_above coll w Hw). lia.
Qed.

Lemma findOne_None (coll : list Vote.t) (u : UserId) (q : QuestionId) :
  Vote.findOne coll u q = None <-> existsb (Vote.has_key u q) coll = false.
Proof.
  unfold Vote.findOne. induction coll as [|v coll IH]; simpl; [tauto|].
  destruct (Vote.has_key u q v); simpl; [split; discriminate|exact IH].
Qed.



(** X10.  A failure of [submitVote] after the insert is not rolled back.
    When the question's lists already hold the user although no Vote
    exists, [addVote] throws after [Vote.create] has succeeded: the
    request fails, nothing is emitted, question and user are untouched,
    and the new Vote stays in the collection. *)
Theorem X10_submitVote_keeps_vote_when_addVote_throws (d : Db.t)
    (io : gmap SocketId SocketIO.Socket) (tz now : Z) (u : UserId)
    (q : QuestionId) (body : voteController.VoteBody)
    (question : Question.t) (o : string) :
  Db.questions d !! q = Some question ->
  voteController.available question = true ->
  Vote.findOne (Db.votes d) u q = None ->
  Question.hasUserVoted question u = Some o ->
  let r := voteController.submitVote d io tz now u q body in
  voteController.response r
  = Err (voteController.Thrown "User has already voted on this question") /\
  voteController.emitted r = [] /\
  Db.questions (voteController.db r) = Db.questions d /\
  Db.users (voteController.db r) = Db.users d /\
  exists v, Db.votes (voteController.db r) = Db.votes d ++ [v] /\
            Vote.key v = (u, q) /\ Vote.choice v = voteController.choice body.
Proof.
  intros Hq Hav Hfree Hvoted. cbv zeta.
  unfold voteController.submitVote. rewrite Hq, Hav, Hfree. simpl negb. cbv iota.
  unfold Vote.create, Vote.insert. simpl.
  rewrite (proj1 (findOne_None _ _ _) Hfree), fresh_id_unused. simpl.
  unfold Question.addVote. rewrite Hvoted. simpl.
  repeat split. eexists. repeat split.
Qed.

Lemma X10_submitVote_keeps_vote_when_addVote_throws_witness :
  let d := Sample.db_with {[ 1%nat := Sample.question1 ]} [] in
  Db.questions d !! 1%nat = Some Sample.question1 /\
  Vote.findOne (Db.votes d) 1%nat 1%nat = None /\
  Question.hasUserVoted Sample.question1 1%nat = Some "optionA"%string /\
  voteController.response
    (voteController.submitVote d ∅ 0 1000 1%nat 1%nat (Sample.choose optionB))
  = Err (voteController.Thrown "User has already voted on this question").
Proof.
  cbv zeta. split; [reflexivity|]. split; [reflexivity|]. split; [reflexivity|].
  exact (proj1 (X10_submitVote_keeps_vote_when_addVote_throws
                  (Sample.db_with {[ 1%nat := Sample.question1 ]} []) ∅ 0 1000
                  1%nat 1%nat (Sample.choose optionB) Sample.question1 "optionA"
                  eq_refl eq_refl eq_refl eq_refl)).
Defined.

(** X11.  What a successful [submitVote] does to the voter: [votesCount]
    grows by 1, experience by 10, points by 10 plus the reward of each
    badge reported in the response, the reported badges are appended to
    the user's, and the streak in the response is the stored
    [currentStreak].  The Vote of the response is appended to the
    collection, and no Vote existed for the pair before. *)
Theorem X11_submitVote_success (d : Db.t) (io : gmap SocketId SocketIO.Socket)
    (tz now : Z) (u : UserId) (q : QuestionId) (body : voteController.VoteBody)
    (data : voteController.SubmitVoteData) :
  let r := voteController.submitVote d io tz now u q body in
  voteController.response r = Ok data ->
  exists user user',
    Db.users d !! u = Some user /\
    Db.users (voteController.db r) !! u = Some user' /\
    let s := User.stats user in
    let s' := User.stats user' in
    let earned := map fst (voteController.earnedBadges data) in
    User.votesCount s' = User.votesCount s + 1 /\
    User.experience s' = User.experience s + 10 /\
    User.points s' = User.points s + 10 + sum_rewards d earned /\
    User.badges s' = User.badges s ++ earned /\
    User.currentStreak s' = voteController.streak data /\
    Vote.findOne (Db.votes d) u q = None /\
    Db.votes (voteController.db r) = Db.votes d ++ [voteController.vote data] /\
    Vote.key (voteController.vote data) = (u, q) /\
    Vote.choice (voteController.vote data) = voteController.choice body.
Proof.
  cbv zeta. unfold voteController.submitVote.
  destruct (Db.questions d !! q) as [question|]; [|discriminate].
  destruct (negb (voteController.available question)); [discriminate|].
  destruct (Vote.findOne (Db.votes d) u q) eqn:Hfree; [discriminate|].
  unfold Vote.create, Vote.insert. simpl.
  rewrite (proj1 (findOne_None _ _ _) Hfree), fresh_id_unused. simpl.
  destruct (Question.addVote now question u _ _) as [question1|]; [|discriminate].
  unfold Db.save_question, Db.set_questions, Db.set_votes. simpl.
  destruct (Db.users d !! u) as [user|] eqn:Hu; [|discriminate].
  destruct (addPoints_fields (User.incVotesCount user) 10) as (A1 & A2 & _).
  assert (User.votesCount (User.stats (fst (User.addPoints (User.incVotesCount user) 10)))
          = User.votesCount (User.stats user) + 1) as A3.
  { unfold User.addPoints. cbv zeta. destruct (_ <? _); reflexivity. }
  assert (User.badges (User.stats (fst (User.addPoints (User.incVotesCount user) 10)))
          = User.badges (User.stats user)) as A4.
  { unfold User.addPoints. cbv zeta. destruct (_ <? _); reflexivity. }
  destruct (User.addPoints (User.incVotesCount user) 10) as [user2 earned].
  pose proof (updateStreak_level tz now user2) as Hs.
  assert (snd (User.updateStreak tz now user2)
          = User.currentStreak (User.stats (fst (User.updateStreak tz now user2)))) as Hret.
  { unfold User.updateStreak. cbv zeta.
    destruct (_ =? 0); [reflexivity|]. destruct (_ =? 1); reflexivity. }
  destruct (User.updateStreak tz now user2) as [user3 newStreak].
  simpl in A1, A2, A3, A4, Hs, Hret. destruct Hs as (_ & S2 & S3 & S4 & S5).
  match goal with
  | |- context [Badge.evaluate ?d3 tz now u ?bs] =>
      pose proof (evaluate_spec bs d3 tz now u) as He;
      pose proof (evaluate_frame bs d3 tz now u) as Hf;
      pose proof (evaluate_user bs d3 tz now u user3
                    ltac:(simpl; apply lookup_insert_eq)) as Hk;
      destruct (Badge.evaluate d3 tz now u bs) as [d4 badges]
  end.
  cbv zeta in He. simpl in He, Hf, Hk.
  destruct He as (Hr & _ & Hh & Hp & _). destruct Hf as (Hv & _).
  destruct Hk as (user' & Hu' & K).
  unfold held, points_of in Hh, Hp. simpl in Hh, Hp.
  rewrite lookup_insert_eq, Hu' in Hh, Hp.
  destruct K as (_ & K2 & K3 & _ & K5 & _).
  intros Hd. injection Hd as <-. simpl.
  exists user, user'. rewrite Hu', Hv. simpl.
  split; [reflexivity|]. split; [reflexivity|].
  split; [lia|]. split; [lia|].
  split.
  { rewrite Hp. rewrite (sum_rewards_ext d _ (map fst badges)); [lia|].
    intros j. reflexivity. }
  split; [rewrite Hh; congruence|].
  split; [congruence|].
  repeat split.
Qed.

Lemma X11_submitVote_success_witness :
  exists data,
    voteController.response
      (voteController.submitVote Sample.db_empty ∅ 0 1000 1%nat 1%nat
         (Sample.choose optionA)) = Ok data /\
    exists user',
      Db.users (voteController.db
                  (voteController.submitVote Sample.db_empty ∅ 0 1000 1%nat 1%nat
                     (Sample.choose optionA))) !! 1%nat = Some user' /\
      User.votesCount (User.stats user') = 0 + 1.
Proof.
  eexists. split; [vm_compute; reflexivity|].
  destruct (X11_submitVote_success Sample.db_empty ∅ 0 1000 1%nat 1%nat
              (Sample.choose optionA) _ eq_refl)
    as (user & user' & Hu & Hu' & Hc & _).
  exists user'. split; [exact Hu'|].
  vm_compute in Hu. injection Hu as <-. exact Hc.
Defined.

(** X12.  [deleteVote] of an unknown id fails with 404 and changes
    nothing.  Otherwise it succeeds and emits nothing; no vote with that
    id is left; the voter's points go down by 10 and [votesCount] by 1,
    while experience, level, streaks and badges stay as they are; and
    the voter has no entry left in the question's lists. *)
Theorem X12_deleteVote_outcomes (d : Db.t) (now : Z) (i : VoteId) :
  let r := voteController.deleteVote d now i in
  match Vote.findById (Db.votes d) i with
  | None => r = voteController.fail d "Vote not found" 404
  | Some v =>
      voteController.response r = Ok tt /\
      voteController.emitted r = [] /\
      Vote.findById (Db.votes (voteController.db r)) i = None /\
      (forall w, In w (Db.votes (voteController.db r)) <->
                 In w (Db.votes d) /\ Vote._id w <> i) /\
      (forall user, Db.users d !! Vote.userId v = Some user ->
         exists user',
           Db.users (voteController.db r) !! Vote.userId v = Some user' /\
           User.points (User.stats user') = User.points (User.stats user) - 10 /\
           User.votesCount (User.stats user') = User.votesCount (User.stats user) - 1 /\
           User.badges (User.stats user') = User.badges (User.stats user) /\
           User.experience (User.stats user') = User.experience (User.stats user) /\
           User.level (User.stats user') = User.level (User.stats user) /\
           User.currentStreak (User.stats user') = User.currentStreak (User.stats user) /\
           User.longestStreak (User.stats user') = User.longestStreak (User.stats user)) /\
      (forall question, Db.questions d !! Vote.questionId v = Some question ->
         exists question',
           Db.questions (voteController.db r) !! Vote.questionId v = Some question' /\
           Question.hasUserVoted question' (Vote.userId v) = None)
  end.
Proof.
  cbv zeta. unfold voteController.deleteVote.
  destruct (Vote.findById (Db.votes d) i) as [v|] eqn:Hf; [|reflexivity].
  simpl. split; [reflexivity|]. split; [reflexivity|].
  assert (Db.votes
            match Db.questions d !! Vote.questionId v with
            | Some question =>
                Db.save_question d now (Vote.questionId v)
                  (Question.removeVote question (Vote.userId v))
            | None => d
            end = Db.votes d) as Hvotes
    by (destruct (Db.questions d !! Vote.questionId v); reflexivity).
  assert (Db.users
            match Db.questions d !! Vote.questionId v with
            | Some question =>
                Db.save_question d now (Vote.questionId v)
                  (Question.removeVote question (Vote.userId v))
            | None => d
            end = Db.users d) as Husers
    by (destruct (Db.questions d !! Vote.questionId v); reflexivity).
  rewrite Hvotes, Husers.
  split; [|split; [|split]].
  - unfold Vote.findById, Vote.findByIdAndDelete.
    destruct (List.find _ (List.filter _ _)) as [w|] eqn:E; [|reflexivity].
    apply find_in in E as [Hin Hw]. apply filter_In in Hin as [_ Hn].
    rewrite Hw in Hn. discriminate Hn.
  - intros w. unfold Vote.findByIdAndDelete. rewrite filter_In.
    rewrite negb_true_iff, bool_decide_eq_false. reflexivity.
  - intros user Hu. rewrite lookup_alter_eq, Hu. simpl.
    eexists. split; [reflexivity|]. simpl. repeat split.
  - intros question Hq. rewrite Hq. simpl. rewrite lookup_insert_eq.
    eexists. split; [reflexivity|].
    destruct (pre_save_updateStats now
                (Question.with_votes question
                   (List.filter (fun vote => negb (Question.voted_by (Vote.userId v) vote))
                      (Question.votesA question))
                   (List.filter (fun vote => negb (Question.voted_by (Vote.userId v) vote))
                      (Question.votesB question)))) as (HA & HB & _).
    pose proof (removeVote_not_voted question (Vote.userId v)) as Hr.
    unfold Question.hasUserVoted in *. unfold Question.removeVote in *.
    rewrite HA, HB. exact Hr.
Qed.

End Ledger.

(** ** socketHandler.js: presence and rooms *)

Section Presence.

Import SocketIO.

Lemma members_rooms_of (sockets : gmap SocketId Socket) (r : Room) (y : SocketId) :
  y ∈ members sockets r <-> r ∈ rooms_of sockets y.
Proof.
  rewrite members_spec. unfold rooms_of.
  destruct (sockets !! y) as [s|].
  - split; [intros (s' & [= <-] & H); exact H|eauto].
  - split; [intros (s' & H & _); discriminate H|intros H; inversion H].
Qed.

Lemma rooms_of_join (sockets : gmap SocketId Socket) (sid y : SocketId) (r r' : Room) :
  r' ∈ rooms_of (join sockets sid r) y
  <-> r' ∈ rooms_of sockets y \/ (y = sid /\ r' = r /\ is_Some (sockets !! sid)).
Proof.
  unfold rooms_of, join.
  destruct (decide (y = sid)) as [->|Hne].
  - rewrite lookup_alter_eq. destruct (sockets !! sid) as [s|]; simpl.
    + unfold in_room. destruct (bool_decide (r ∈ rooms s)) eqn:E.
      * apply bool_decide_eq_true in E. split; [tauto|].
        intros [H|(_ & -> & _)]; assumption.
      * simpl. rewrite elem_of_app, list_elem_of_singleton.
        split; [intros [H|H]; [tauto|right; eauto]|intros [H|(_ & H & _)]; tauto].
    + split; [intros H; inversion H|].
      intros [H|(_ & _ & [x Hx])]; [inversion H|discriminate Hx].
  - rewrite lookup_alter_ne by congruence. tauto.
Qed.

Lemma rooms_of_leave (sockets : gmap SocketId Socket) (sid y : SocketId) (r r' : Room) :
  r' ∈ rooms_of (leave sockets sid r) y
  <-> r' ∈ rooms_of sockets y /\ (y = sid -> r' <> r).
Proof.
  unfold rooms_of, leave.
  destruct (decide (y = sid)) as [->|Hne].
  - rewrite lookup_alter_eq. destruct (sockets !! sid) as [s|]; simpl.
    + rewrite !list_elem_of_In, filter_In, negb_true_iff, bool_decide_eq_false.
      tauto.
    + split; [intros H; inversion H|intros [H _]; inversion H].
  - rewrite lookup_alter_ne by congruence. tauto.
Qed.

Lemma join_keeps_user (sockets : gmap SocketId Socket) (sid : SocketId) (r : Room)
    (s : Socket) :
  sockets !! sid = Some s ->
  exists s', join sockets sid r !! sid = Some s' /\
             userId s' = userId s /\ username s' = username s /\ avatar s' = avatar s.
Proof.
  intros H. unfold join. rewrite lookup_alter_eq, H. simpl.
  destruct (in_room r s); eexists; split; try reflexivity; auto.
Qed.

Lemma leave_keeps_user (sockets : gmap SocketId Socket) (sid : SocketId) (r : Room)
    (s : Socket) :
  sockets !! sid = Some s ->
  exists s', leave sockets sid r !! sid = Some s' /\
             userId s' = userId s /\ username s' = username s /\ avatar s' = avatar s.
Proof.
  intros H. unfold leave. rewrite lookup_alter_eq, H. simpl.
  eexists; split; try reflexivity; auto.
Qed.

(** What a successful [join_question] does to the rooms of the sockets
    and to the entry of the user. *)
Lemma join_question_rooms (db : Db.t) (st : socketHandler.State) (sid : SocketId)
    (q : QuestionId) (sock : Socket) (question : Question.t) :
  socketHandler.sockets st !! sid = Some sock ->
  Db.questions db !! q = Some question ->
  let st' := fst (socketHandler.join_question db st sid q) in
  let previous :=
    match socketHandler.activeUsers st !! userId sock with
    | Some data => socketHandler.currentRoom data
    | None => None
    end in
  (forall y r, r ∈ rooms_of (socketHandler.sockets st') y <->
     (r ∈ rooms_of (socketHandler.sockets st) y /\
      (y = sid -> Some r <> previous))
     \/ (y = sid /\ r = question_ q)) /\
  (exists sock', socketHandler.sockets st' !! sid = Some sock' /\
                 userId sock' = userId sock /\ username sock' = username sock /\
                 avatar sock' = avatar sock) /\
  socketHandler.activeUsers st'
  = alter (fun data => socketHandler.set_currentRoom data (Some (question_ q)))
          (userId sock) (socketHandler.activeUsers st).
Proof.
  intros Hs Hq. cbv zeta. unfold socketHandler.join_question. rewrite Hs, Hq.
  destruct (socketHandler.activeUsers st !! userId sock) as [[? ? ? ? ? [prev|] ? ?]|]
    eqn:Ha; simpl.
  - split; [|split; [|reflexivity]].
    + intros y r. rewrite rooms_of_join, rooms_of_leave.
      destruct (leave_keeps_user (socketHandler.sockets st) sid prev sock Hs)
        as (s1 & H1 & _).
      split.
      * intros [[H1' H2]|(-> & -> & _)]; [left|right; auto].
        split; [exact H1'|]. intros E [= ->]. exact (H2 E eq_refl).
      * intros [[H1' H2]|[-> ->]]; [left|right; eauto].
        split; [exact H1'|]. intros E ->. exact (H2 E eq_refl).
    + destruct (leave_keeps_user (socketHandler.sockets st) sid prev sock Hs)
        as (s1 & H1 & U1 & N1 & A1).
      destruct (join_keeps_user _ sid (question_ q) s1 H1) as (s2 & H2 & U2 & N2 & A2).
      exists s2. split; [exact H2|]. split; [congruence|]. split; congruence.
  - split; [|split; [|reflexivity]].
    + intros y r. rewrite rooms_of_join.
      split.
      * intros [H|(-> & -> & _)]; [left|right; auto]. split; [exact H|]. discriminate.
      * intros [[H _]|[-> ->]]; [left; exact H|right; eauto].
    + apply join_keeps_user, Hs.
  - split; [|split; [|reflexivity]].
    + intros y r. rewrite rooms_of_join.
      split.
      * intros [H|(-> & -> & _)]; [left|right; auto]. split; [exact H|]. discriminate.
      * intros [[H _]|[-> ->]]; [left; exact H|right; eauto].
    + apply join_keeps_user, Hs.
Qed.

(** X13.  A socket that joins one question and then another is moved:
    with the user's entry in [activeUsers], after [join_question q1] and
    [join_question q2] (two different questions) the socket is in the
    room of [q2] and not in the room of [q1], and the entry's
    [currentRoom] is the room of [q2]. *)
Theorem X13_joining_another_question_leaves_the_first (db : Db.t)
    (st : socketHandler.State) (sid : SocketId) (q1 q2 : QuestionId)
    (sock : Socket) (data : socketHandler.UserData) (question1 question2 : Question.t) :
  socketHandler.sockets st !! sid = Some sock ->
  socketHandler.activeUsers st !! userId sock = Some data ->
  Db.questions db !! q1 = Some question1 ->
  Db.questions db !! q2 = Some question2 ->
  q1 <> q2 ->
  let st1 := fst (socketHandler.join_question db st sid q1) in
  let st2 := fst (socketHandler.join_question db st1 sid q2) in
  sid ∈ members (socketHandler.sockets st2) (question_ q2) /\
  (sid ∉ members (socketHandler.sockets st2) (question_ q1)) /\
  socketHandler.currentRoom <$> (socketHandler.activeUsers st2 !! userId sock)
  = Some (Some (question_ q2)).
Proof.
  intros Hs Ha Hq1 Hq2 Hne. cbv zeta.
  destruct (join_question_rooms db st sid q1 sock question1 Hs Hq1)
    as (R1 & (sock1 & Hs1 & U1 & _) & A1).
  cbv zeta in R1, A1.
  destruct (join_question_rooms db _ sid q2 sock1 question2 Hs1 Hq2)
    as (R2 & _ & A2).
  cbv zeta in R2, A2.
  rewrite U1, A1, lookup_alter_eq, Ha in R2. rewrite U1, A1 in A2.
  simpl in R2, A2.
  rewrite !members_rooms_of. split; [|split].
  - apply R2. right. auto.
  - intros H. apply R2 in H as [[_ H]|[_ [= E]]]; [|congruence].
    apply (H eq_refl). reflexivity.
  - rewrite A2, !lookup_alter_eq, Ha. reflexivity.
Qed.

Lemma X13_joining_another_question_leaves_the_first_witness :
  let db := Sample.db_with {[ 1%nat := Sample.question0; 2%nat := Sample.question0 ]} [] in
  let st := fst (socketHandler.handleConnection Sample.offline 0 10%nat 1%nat "ann" None) in
  (exists sock, socketHandler.sockets st !! 10%nat = Some sock /\ userId sock = 1%nat) /\
  (10%nat ∉ members
     (socketHandler.sockets
        (fst (socketHandler.join_question db
                (fst (socketHandler.join_question db st 10%nat 1%nat)) 10%nat 2%nat)))
     (question_ 1%nat)).
Proof.
  cbv zeta.
  assert (socketHandler.sockets
            (fst (socketHandler.handleConnection Sample.offline 0 10%nat 1%nat "ann" None))
          !! 10%nat
          = Some {| userId := 1%nat; username := "ann"; avatar := None;
                    rooms := [user_ 1%nat] |}) as Hs by (vm_compute; reflexivity).
  split; [eexists; split; [exact Hs|reflexivity]|].
  refine (proj1 (proj2 (X13_joining_another_question_leaves_the_first
                          _ _ 10%nat 1%nat 2%nat _ _ Sample.question0 Sample.question0
                          Hs _ _ _ _))).
  - vm_compute. reflexivity.
  - vm_compute. reflexivity.
  - vm_compute. reflexivity.
  - discriminate.
Defined.

(** X14.  When a socket closes, its user's [activeUsers] entry is deleted
    and the socket is in no room any more, also when another socket of
    the same user stays connected; the entries of other users and the
    other sockets are untouched. *)
Theorem X14_disconnect_removes_entry (st : socketHandler.State) (now : Z)
    (sid : SocketId) (sock : Socket) :
  socketHandler.sockets st !! sid = Some sock ->
  let st' := fst (socketHandler.disconnect st now sid) in
  socketHandler.activeUsers st' !! userId sock = None /\
  socketHandler.sockets st' !! sid = None /\
  (forall r, sid ∉ members (socketHandler.sockets st') r) /\
  (forall u, u <> userId sock ->
     socketHandler.activeUsers st' !! u = socketHandler.activeUsers st !! u) /\
  (forall y, y <> sid ->
     socketHandler.sockets st' !! y = socketHandler.sockets st !! y).
Proof.
  intros Hs. cbv zeta. unfold socketHandler.disconnect. rewrite Hs. simpl.
  split; [apply lookup_delete_eq|]. split; [apply lookup_delete_eq|].
  split; [|split].
  - intros r. rewrite members_rooms_of. unfold rooms_of.
    rewrite lookup_delete_eq. intros H. inversion H.
  - intros u Hu. apply lookup_delete_ne. congruence.
  - intros y Hy. apply lookup_delete_ne. congruence.
Qed.

Lemma X14_disconnect_removes_entry_witness :
  (exists sock, socketHandler.sockets (Server.io Sample.in_room) !! 10%nat = Some sock) /\
  socketHandler.sockets
    (fst (socketHandler.disconnect (Server.io Sample.in_room) 5000 10%nat)) !! 10%nat
  = None.
Proof.
  assert (socketHandler.sockets (Server.io Sample.in_room) !! 10%nat
          = Some {| userId := 1%nat; username := "ann"; avatar := None;
                    rooms := [user_ 1%nat; question_ 1%nat] |}) as H
    by (vm_compute; reflexivity).
  split; [eexists; exact H|].
  exact (proj1 (proj2 (X14_disconnect_removes_entry _ 5000 10%nat _ H))).
Defined.

Lemma fetchSockets_spec (sockets : gmap SocketId Socket) (r : Room)
    (y : SocketId) (s : Socket) :
  In (y, s) (fetchSockets sockets r) <-> sockets !! y = Some s /\ r ∈ rooms s.
Proof.
  unfold fetchSockets. rewrite filter_In, <- list_elem_of_In, elem_of_map_to_list.
  simpl. unfold in_room. rewrite bool_decide_eq_true. reflexivity.
Qed.

(** X15.  What the joiner is told.  A successful [join_question] ends
    with a [room_joined] event for the joining socket alone: its
    [activeUsers] is the number of sockets in the room, the joiner
    included, so at least 1; its [users] are the first 10 of them, each
    a socket of the room with that socket's user.  The [user_joined_room]
    notice before it goes to the room without the joiner. *)
Theorem X15_room_joined_payload (db : Db.t) (st : socketHandler.State)
    (sid : SocketId) (q : QuestionId) (sock : Socket) (question : Question.t) :
  socketHandler.sockets st !! sid = Some sock ->
  Db.questions db !! q = Some question ->
  let r := socketHandler.join_question db st sid q in
  let sockets' := socketHandler.sockets (fst r) in
  let roomUsers := socketHandler.getRoomUsers sockets' (question_ q) in
  exists before,
    snd r = before
            ++ [socket_to sockets' sid (question_ q)
                  (user_joined_room (userId sock) (username sock) (avatar sock));
                socket_emit sid
                  (room_joined q (length roomUsers) (firstn 10 roomUsers))] /\
    (1 <= length roomUsers)%nat /\
    length (firstn 10 roomUsers) = Nat.min 10 (length roomUsers) /\
    (forall ru, In ru roomUsers <->
       exists s, sockets' !! ru_socketId ru = Some s /\ question_ q ∈ rooms s /\
                 ru_userId ru = userId s /\ ru_username ru = username s /\
                 ru_avatar ru = avatar s) /\
    (sid ∉ recipients
             (socket_to sockets' sid (question_ q)
                (user_joined_room (userId sock) (username sock) (avatar sock)))).
Proof.
  intros Hs Hq. cbv zeta.
  destruct (join_question_rooms db st sid q sock question Hs Hq)
    as (R & (sock' & Hs' & _) & _). cbv zeta in R.
  assert (forall ru,
            In ru (socketHandler.getRoomUsers
                     (socketHandler.sockets (fst (socketHandler.join_question db st sid q)))
                     (question_ q)) <->
            exists s,
              socketHandler.sockets (fst (socketHandler.join_question db st sid q))
                !! ru_socketId ru = Some s /\ question_ q ∈ rooms s /\
              ru_userId ru = userId s /\ ru_username ru = username s /\
              ru_avatar ru = avatar s) as Hru.
  { intros ru. unfold socketHandler.getRoomUsers. rewrite in_map_iff. split.
    - intros ([y s] & <- & Hin). apply fetchSockets_spec in Hin as [H1 H2].
      exists s. simpl. auto.
    - intros (s & H1 & H2 & H3 & H4 & H5). exists (ru_socketId ru, s).
      split; [|apply fetchSockets_spec; auto].
      destruct ru; simpl in *; congruence. }
  assert (1 <= length (socketHandler.getRoomUsers
                         (socketHandler.sockets (fst (socketHandler.join_question db st sid q)))
                         (question_ q)))%nat as Hone.
  { assert (In {| ru_userId := userId sock'; ru_username := username sock';
                  ru_avatar := avatar sock'; ru_socketId := sid |}
               (socketHandler.getRoomUsers
                  (socketHandler.sockets (fst (socketHandler.join_question db st sid q)))
                  (question_ q))) as Hin.
    { apply Hru. exists sock'. simpl. split; [exact Hs'|]. split; [|auto].
      specialize (R sid (question_ q)). unfold rooms_of in R at 1.
      rewrite Hs' in R. apply R. right. auto. }
    destruct (socketHandler.getRoomUsers _ _); [destruct Hin|simpl; lia]. }
  revert Hru Hone.
  unfold socketHandler.join_question. rewrite Hs, Hq.
  destruct (socketHandler.activeUsers st !! userId sock) as [[? ? ? ? ? [prev|] ? ?]|];
    simpl; intros Hru Hone;
    [exists [socket_to (leave (socketHandler.sockets st) sid prev) sid prev
               (user_left_room (userId sock) (username sock))]
    |exists [] |exists []];
    (split; [reflexivity|]);
    (split; [exact Hone|]); (split; [apply List.length_firstn|]);
    (split; [exact Hru|]);
    rewrite elem_of_difference, elem_of_singleton; tauto.
Qed.

Lemma X15_room_joined_payload_witness :
  let st := Server.io Sample.in_room in
  (exists sock, socketHandler.sockets st !! 20%nat = Some sock) /\
  (1 <= length (socketHandler.getRoomUsers
                  (socketHandler.sockets
                     (fst (socketHandler.join_question Sample.db_voted st 20%nat 1%nat)))
                  (question_ 1%nat)))%nat.
Proof.
  cbv zeta.
  assert (socketHandler.sockets (Server.io Sample.in_room) !! 20%nat
          = Some {| userId := 2%nat; username := "bob"; avatar := None;
                    rooms := [user_ 2%nat; question_ 1%nat] |}) as H
    by (vm_compute; reflexivity).
  split; [eexists; exact H|].
  destruct (X15_room_joined_payload Sample.db_voted (Server.io Sample.in_room)
              20%nat 1%nat _ Sample.question1 H eq_refl) as (before & _ & Hone & _).
  exact Hone.
Defined.

Lemma submitVote_emitted d io tz now u q body data :
  voteController.response (voteController.submitVote d io tz now u q body) = Ok data ->
  exists update,
    voteController.emitted (voteController.submitVote d io tz now u q body)
    = update ::
      match voteController.earnedBadges data with
      | [] => []
      | _ :: _ => [io_to io (user_ u) (badges_earned (voteController.earnedBadges data))]
      end.
Proof.
  unfold voteController.submitVote.
  destruct (Db.questions d !! q) as [question|]; [|discriminate].
  destruct (negb (voteController.available question)); [discriminate|].
  destruct (Vote.findOne (Db.votes d) u q); [discriminate|].
  destruct (Vote.create _ _ _ _ _ _ _) as [[votes1 vote_]|]; [|discriminate].
  destruct (Question.addVote now question u _ _) as [question1|]; [|discriminate].
  destruct (Db.users _ !! u) as [user|]; [|discriminate].
  destruct (User.addPoints _ 10) as [user2 earned].
  destruct (User.updateStreak tz now user2) as [user3 newStreak].
  destruct (Badge.evaluate _ tz now u _) as [d4 badges].
  simpl. intros [= <-]. simpl. eexists. reflexivity.
Qed.

(** X16.  The badge notice reaches the voter.  A socket that connected
    as user [u] is in the room [user_u]; when a later [submitVote] of [u]
    reports badges, it emits [badges_earned] with exactly those badges,
    and that socket is among the recipients. *)
Theorem X16_badges_earned_reaches_voter (st : socketHandler.State) (t0 : Z)
    (sid : SocketId) (u : UserId) (name : string) (av : option string)
    (d : Db.t) (tz now : Z) (q : QuestionId) (body : voteController.VoteBody)
    (data : voteController.SubmitVoteData) :
  let io := socketHandler.sockets
              (fst (socketHandler.handleConnection st t0 sid u name av)) in
  let r := voteController.submitVote d io tz now u q body in
  voteController.response r = Ok data ->
  voteController.earnedBadges data <> [] ->
  exists em,
    In em (voteController.emitted r) /\
    event em = badges_earned (voteController.earnedBadges data) /\
    sid ∈ recipients em.
Proof.
  cbv zeta. intros Hok Hne.
  destruct (submitVote_emitted _ _ _ _ _ _ _ _ Hok) as (update & ->).
  destruct (voteController.earnedBadges data) as [|b bs]; [congruence|].
  eexists. split; [right; left; reflexivity|]. split; [reflexivity|].
  simpl. apply members_rooms_of. unfold socketHandler.handleConnection. simpl.
  apply rooms_of_join. right. split; [reflexivity|]. split; [reflexivity|].
  rewrite lookup_insert_eq. eauto.
Qed.

Lemma X16_badges_earned_reaches_voter_witness :
  let io := socketHandler.sockets
              (fst (socketHandler.handleConnection Sample.offline 0 10%nat 2%nat "bob" None)) in
  let d := Db.set_badges (Sample.db_with {[ 1%nat := Sample.question0 ]} [])
             {[ 1%nat := Sample.first_vote ]} in
  let r := voteController.submitVote d io 0 1000 2%nat 1%nat (Sample.choose optionA) in
  exists data em,
    voteController.response r = Ok data /\
    voteController.earnedBadges data <> [] /\
    In em (voteController.emitted r) /\
    10%nat ∈ recipients em.
Proof.
  cbv zeta.
  set (r := voteController.submitVote _ _ 0 1000 2%nat 1%nat (Sample.choose optionA)).
  assert (exists data, voteController.response r = Ok data /\
                       voteController.earnedBadges data <> []) as (data & Hok & Hne).
  { vm_compute. eexists. split; [reflexivity|discriminate]. }
  destruct (X16_badges_earned_reaches_voter Sample.offline 0 10%nat 2%nat "bob" None
              _ 0 1000 1%nat (Sample.choose optionA) data Hok Hne)
    as (em & Hin & _ & Hrec).
  exists data, em. auto.
Defined.

End Presence.
